(** * VaR calculator: a shallow embedding of [cfd_bot/core/var_calculator.py]

    Python floats are idealised as exact rationals ([Q]): every operation
    is the exact one, where binary64 rounds its result.  Error paths,
    shapes, comparisons, and orderings obtained through one and the same
    monotone operation are the same in binary64.  What rests on the exact
    value of a mean is exact here and holds in binary64 up to rounding
    only: the deviations of a constant series from its mean are 0 here and
    a rounding residue there (ten returns of 0.01 have volatility about
    1.7e-18), and the mean of a tail does not exceed its largest element
    here, but may do so in the last place there.  The statements below say
    which of the two they are.

    The fields in which the code itself produces or receives a non-finite
    float carry a [pyfloat]: the violation rate (a count divided by a
    possibly zero count), the Kupiec statistic ([float('inf')]), the
    skewness and kurtosis (moment ratios of a possibly zero-variance
    sample) and the entries of the correlation matrix.  Library functions
    with no rational closed form, the seeded random generator and the
    clock are the fields of the [Runtime] class; the quantile functions
    among them are total here, while scipy's are finite only for a
    probability strictly between 0 and 1 (and at least one degree of
    freedom), so statements about the values of the parametric estimator
    are made on that domain ([ppf_finite]).  Logging has no effect on
    results and is left out; the [try ... except ...: raise] wrappers
    re-raise unchanged. *)

From Stdlib Require Import String Ascii QArith Qabs Qround Qpower ZArith List Bool.
From Stdlib Require Import Lia Lqa Permutation Sorted Mergesort Orders.
Import ListNotations.

Local Open Scope Q_scope.

(** ** Python values and exceptions *)

(** A float that may be non-finite. *)
Inductive pyfloat : Type :=
| Fin (q : Q)
| PosInf
| NegInf
| NaN.

(** The exceptions the calculator and the array library raise.  The
    calculator's own [ValueError]s are told apart by their message. *)
Inductive exn : Type :=
| ValueError_empty_returns            (* "returns data is empty" *)
| ValueError_unsupported (distribution : string)
| ValueError_empty_assets             (* "asset returns data is empty" *)
| ValueError_length_mismatch          (* returns / estimates lengths differ *)
| ValueError_percentile_range         (* numpy: percentile outside [0, 100] *)
| ValueError_inhomogeneous            (* numpy: ragged nested sequence *)
| ValueError_negative_size            (* numpy: negative sample count *)
| IndexError                          (* numpy: index into an empty axis *)
| KeyError (key : string).

Inductive result (A : Type) : Type :=
| Ok (a : A)
| Raise (e : exn).
Arguments Ok {A} a.
Arguments Raise {A} e.

Definition bind {A B : Type} (m : result A) (k : A -> result B) : result B :=
  match m with
  | Ok a => k a
  | Raise e => Raise e
  end.

Declare Scope py_scope.
Delimit Scope py_scope with py.
Notation "x <- m ;; k" := (bind m (fun x => k))
  (at level 61, m at next level, right associativity) : py_scope.
Local Open Scope py_scope.

(** Values stored in the open [additional_stats] dictionary. *)
#[warnings="-register-all"]
Inductive pyval : Type :=
| PFloat (q : Q)
| PInt (z : Z)
| PStr (s : string)
| PNone
| PDict (d : list (string * pyval)).

(** [x or y] on an optional float: [None] and [0.0] are falsy. *)
Definition py_or (x : option Q) (y : Q) : Q :=
  match x with
  | Some v => if Qeq_bool v 0 then y else v
  | None => y
  end.

(** Dictionary lookup [d[k]] on an insertion-ordered dictionary. *)
Fixpoint getitem {A : Type} (d : list (string * A)) (k : string) : result A :=
  match d with
  | [] => Raise (KeyError k)
  | (k', v) :: d' => if String.eqb k' k then Ok v else getitem d' k
  end.

(** [int(x)]: truncation towards zero. *)
Definition py_int (x : Q) : Z :=
  if Qle_bool 0 x then Qfloor x else Qceiling x.

(** [str.title()] on ASCII text: the first letter of every run of letters
    is upper-cased, the others lower-cased. *)
Definition is_upper (c : ascii) : bool :=
  let n := nat_of_ascii c in (65 <=? n)%nat && (n <=? 90)%nat.
Definition is_lower (c : ascii) : bool :=
  let n := nat_of_ascii c in (97 <=? n)%nat && (n <=? 122)%nat.
Definition to_upper (c : ascii) : ascii :=
  if is_lower c then ascii_of_nat (nat_of_ascii c - 32) else c.
Definition to_lower (c : ascii) : ascii :=
  if is_upper c then ascii_of_nat (nat_of_ascii c + 32) else c.

Fixpoint title_from (inside_word : bool) (s : string) : string :=
  match s with
  | EmptyString => EmptyString
  | String c s' =>
      let cased := is_upper c || is_lower c in
      String (if inside_word then to_lower c else to_upper c)
             (title_from cased s')
  end.
Definition title (s : string) : string := title_from false s.

(** ** Array primitives (numpy) *)

Module QOrder <: TotalLeBool.
Definition t := Q.
Definition leb (x y : Q) : bool := Qle_bool x y.
Lemma leb_total : forall x y, leb x y = true \/ leb y x = true.
Proof.
  intros x y. unfold leb. rewrite !Qle_bool_iff.
  destruct (Qlt_le_dec x y) as [H | H]; [left; apply Qlt_le_weak, H | right; exact H].
Qed.
End QOrder.

Module QSort := Sort QOrder.

Definition np_sort (a : list Q) : list Q := QSort.sort a.

Definition nat_Q (n : nat) : Q := inject_Z (Z.of_nat n).

Definition np_sum (a : list Q) : Q := fold_left Qplus a 0.

(** [np.mean], in exact arithmetic (binary64 rounds the sum and the
    quotient, so that the mean of equal values can differ from them in the
    last place).  numpy's [nan] for an empty array is not represented: the
    calculator reaches [np.mean] with non-empty arrays only. *)
Definition np_mean (a : list Q) : Q := np_sum a / nat_Q (length a).

(** The boolean-mask selection [a[a <= q]]. *)
Definition tail_of (a : list Q) (q : Q) : list Q :=
  filter (fun x => Qle_bool x q) a.

Fixpoint np_min_from (m : Q) (a : list Q) : Q :=
  match a with
  | [] => m
  | x :: a' => np_min_from (if Qle_bool m x then m else x) a'
  end.
Definition np_min (a : list Q) : Q :=
  match a with [] => 0 | x :: a' => np_min_from x a' end.

Fixpoint np_max_from (m : Q) (a : list Q) : Q :=
  match a with
  | [] => m
  | x :: a' => np_max_from (if Qle_bool x m then m else x) a'
  end.
Definition np_max (a : list Q) : Q :=
  match a with [] => 0 | x :: a' => np_max_from x a' end.

(** numpy's [_lerp]: the second formula replaces the first when [t >= 0.5]. *)
Definition lerp (a b t : Q) : Q :=
  let diff_b_a := b - a in
  if Qle_bool (1 # 2) t then b - diff_b_a * (1 - t) else a + diff_b_a * t.

(** The virtual index of the "linear" method: [p/100 * (n - 1)]. *)
Definition virtual_index (n : nat) (p : Q) : Q := (p / 100) * nat_Q (n - 1).

(** The value of a sorted array at a virtual index: the index is split
    into its floor and its fractional part [gamma], and the two
    neighbouring order statistics are interpolated (the upper neighbour is
    clipped to the last position). *)
Definition interpolate (arr : list Q) (h : Q) : Q :=
  let previous_index := Z.to_nat (Qfloor h) in
  let next_index := Nat.min (previous_index + 1) (length arr - 1) in
  let gamma := h - inject_Z (Qfloor h) in
  lerp (nth previous_index arr 0) (nth next_index arr 0) gamma.

(** [np.percentile(a, p)] with the default "linear" method.  A percentage
    outside [0, 100] is refused; an empty array has no position to read. *)
Definition np_percentile (a : list Q) (p : Q) : result Q :=
  if negb (Qle_bool 0 p && Qle_bool p 100) then Raise ValueError_percentile_range
  else match a with
  | [] => Raise IndexError
  | _ :: _ => Ok (interpolate (np_sort a) (virtual_index (length a) p))
  end.

(** [np.median]: the middle order statistic, or the mean of the two. *)
Definition np_median (a : list Q) : Q :=
  let arr := np_sort a in
  let n := length a in
  if Nat.even n then (nth (n / 2 - 1) arr 0 + nth (n / 2) arr 0) / 2
  else nth (n / 2) arr 0.

(** ** The environment of the calculator

    What the calculator takes from numpy, scipy and the system: functions
    with no rational closed form, the generator that [np.random.seed(42)]
    resets before every draw, and the clock read by [datetime.now()].
    [norm_ppf] and [t_ppf] stand for scipy's quantiles where these are
    finite: at a probability strictly between 0 and 1, with at least one
    degree of freedom (scipy gives an infinity at 0 and 1, and [nan] for 0
    degrees of freedom). *)
Class Runtime : Type := {
  np_sqrt : Q -> Q;
  np_log : Q -> Q;
  norm_ppf : Q -> Q;                         (* scipy.stats.norm.ppf *)
  norm_pdf : Q -> Q;                         (* scipy.stats.norm.pdf *)
  t_ppf : Q -> Z -> Q;                       (* scipy.stats.t.ppf(q, df) *)
  chi2_cdf : Q -> Z -> Q;                    (* scipy.stats.chi2.cdf(x, df) *)
  random_normal : Q -> Q -> nat -> list Q;   (* seed(42); normal(loc, scale, size) *)
  (* what scipy's skew and kurtosis put in place of the moment ratio of a
     zero-variance sample: nan, or 0 in releases before 1.9 *)
  moment_fill : pyfloat;
  now_isoformat : string;                    (* datetime.now().isoformat() *)
  np_sqrt_zero : forall x, x == 0 -> np_sqrt x == 0;
  random_normal_size :
    forall loc scale size, length (random_normal loc scale size) = size;
  moment_fill_cases : moment_fill = NaN \/ moment_fill = Fin 0
}.

Definition pyfloat_sub (x : pyfloat) (y : Q) : pyfloat :=
  match x with
  | Fin q => Fin (q - y)
  | PosInf => PosInf
  | NegInf => NegInf
  | NaN => NaN
  end.

(** Float division by a denominator that is a count or a square root, so
    that a zero denominator is [+0.0]: numpy warns and yields [nan] or a
    signed infinity. *)
Definition pyfloat_div (x : pyfloat) (y : Q) : pyfloat :=
  match x with
  | Fin q =>
      if Qeq_bool y 0 then
        if Qeq_bool q 0 then NaN else if Qle_bool 0 q then PosInf else NegInf
      else Fin (q / y)
  | PosInf => PosInf
  | NegInf => NegInf
  | NaN => NaN
  end.

Section Statistics.
Context {rt : Runtime}.

(** scipy's [_moment(a, k, mean=mean)]: the k-th central moment. *)
Definition moment (a : list Q) (k : positive) (mean : Q) : Q :=
  np_mean (map (fun x => Qpower_positive (x - mean) k) a).

(** [np.std]: population standard deviation. *)
Definition np_std (a : list Q) : Q :=
  np_sqrt (moment a 2 (np_mean a)).

(** scipy's test for a sample too close to constant for the ratio of
    moments to mean anything ([finfo(float64).resolution] is 1e-15). *)
Definition moment_is_zero (m2 mean : Q) : bool :=
  Qle_bool m2 (Qpower_positive ((1 # 1000000000000000) * mean) 2).

(** [scipy.stats.skew]: [m3 / m2**1.5]. *)
Definition stats_skew (a : list Q) : pyfloat :=
  let mean := np_mean a in
  let m2 := moment a 2 mean in
  let m3 := moment a 3 mean in
  if moment_is_zero m2 mean then moment_fill
  else Fin (m3 / (m2 * np_sqrt m2)).

(** [scipy.stats.kurtosis] (Fisher's definition): [m4 / m2**2 - 3]. *)
Definition stats_kurtosis (a : list Q) : pyfloat :=
  let mean := np_mean a in
  let m2 := moment a 2 mean in
  let m4 := moment a 4 mean in
  let vals := if moment_is_zero m2 mean then moment_fill
              else Fin (m4 / Qpower_positive m2 2) in
  pyfloat_sub vals 3.
End Statistics.

(** ** Result records *)

Module VaRResult.
Record t : Type := mk {
  method : string;
  confidence_level : Q;
  var_value : Q;
  var_percentage : Q;
  cvar_value : Q;
  cvar_percentage : Q;
  expected_shortfall : Q;
  portfolio_value : Q;
  calculation_date : string;
  data_points : nat;
  volatility : Q;
  skewness : pyfloat;
  kurtosis : pyfloat;
  additional_stats : list (string * pyval)
}.
End VaRResult.

(** The value of [np.corrcoef(...).tolist()]: a nested list, or a bare
    float when the input has a single row. *)
Inductive corrcoef_value : Type :=
| CorrScalar (c : pyfloat)
| CorrMatrix (rows : list (list pyfloat)).

Module PortfolioVaRResult.
Record t : Type := mk {
  individual_vars : list (string * Q);
  portfolio_var : Q;
  diversification_benefit : Q;
  correlation_matrix : corrcoef_value;
  portfolio_volatility : Q;
  calculation_date : string
}.
End PortfolioVaRResult.

Module VaRValidationResult.
Record t : Type := mk {
  method : string;
  confidence_level : Q;
  violations : nat;
  total_observations : nat;
  violation_rate : pyfloat;
  expected_violations : Z;
  kupiec_statistic : pyfloat;
  kupiec_p_value : Q;
  is_model_valid : bool;
  validation_date : string
}.
End VaRValidationResult.

Module VaRCalculator.
(** The calculator object: its only state is the default portfolio
    value given to the constructor (1000000.0 when omitted). *)
Record t : Type := mk { portfolio_value : Q }.
Definition default : t := mk 1000000.
End VaRCalculator.

(** ** The calculator *)

Section Calculator.
Context {rt : Runtime}.
Variable self : VaRCalculator.t.

Definition is_empty {A : Type} (l : list A) : bool :=
  match l with [] => true | _ :: _ => false end.

(** *** calculate_historical_var *)
Definition calculate_historical_var
    (returns : list Q) (confidence_level : Q) (portfolio_value : option Q)
    : result VaRResult.t :=
  if is_empty returns then Raise ValueError_empty_returns else
  let portfolio_val := py_or portfolio_value (VaRCalculator.portfolio_value self) in
  let returns_array := returns in
  let volatility := np_std returns_array in
  let skewness := stats_skew returns_array in
  let kurtosis := stats_kurtosis returns_array in
  let percentile := (1 - confidence_level) * 100 in
  var_return <- np_percentile returns_array percentile ;;
  let var_value := Qabs (var_return * portfolio_val) in
  let var_percentage := Qabs var_return * 100 in
  let tail_returns := tail_of returns_array var_return in
  let '(cvar_value, cvar_percentage, expected_shortfall) :=
    if (0 <? length tail_returns)%nat then
      let cvar_return := np_mean tail_returns in
      let cvar_value := Qabs (cvar_return * portfolio_val) in
      (cvar_value, Qabs cvar_return * 100, cvar_value)
    else (var_value, var_percentage, var_value) in
  let additional_stats :=
    [ ("min_return", PFloat (np_min returns_array));
      ("max_return", PFloat (np_max returns_array));
      ("mean_return", PFloat (np_mean returns_array));
      ("median_return", PFloat (np_median returns_array));
      ("percentile_used", PFloat percentile);
      ("tail_observations", PInt (Z.of_nat (length tail_returns))) ]%string in
  Ok (VaRResult.mk "Historical VaR" confidence_level
        var_value var_percentage cvar_value cvar_percentage expected_shortfall
        portfolio_val now_isoformat (length returns_array)
        volatility skewness kurtosis additional_stats).

(** *** calculate_parametric_var *)
Definition calculate_parametric_var
    (returns : list Q) (confidence_level : Q) (distribution : string)
    (portfolio_value : option Q) : result VaRResult.t :=
  if is_empty returns then Raise ValueError_empty_returns else
  let portfolio_val := py_or portfolio_value (VaRCalculator.portfolio_value self) in
  let returns_array := returns in
  let mean_return := np_mean returns_array in
  let volatility := np_std returns_array in
  let skewness := stats_skew returns_array in
  let kurtosis := stats_kurtosis returns_array in
  let z_score := norm_ppf (1 - confidence_level) in
  let df := (Z.of_nat (length returns_array) - 1)%Z in
  let t_score := t_ppf (1 - confidence_level) df in
  var_return <-
    (if String.eqb distribution "normal" then Ok (mean_return + z_score * volatility)
     else if String.eqb distribution "t" then Ok (mean_return + t_score * volatility)
     else Raise (ValueError_unsupported distribution)) ;;
  let var_value := Qabs (var_return * portfolio_val) in
  let var_percentage := Qabs var_return * 100 in
  let cvar_return :=
    if String.eqb distribution "normal" then
      let phi_z := norm_pdf (norm_ppf (1 - confidence_level)) in
      mean_return - volatility * phi_z / (1 - confidence_level)
    else var_return * (12 # 10) in
  let cvar_value := Qabs (cvar_return * portfolio_val) in
  let cvar_percentage := Qabs cvar_return * 100 in
  let expected_shortfall := cvar_value in
  let additional_stats :=
    [ ("distribution", PStr distribution);
      ("mean_return", PFloat mean_return);
      ("z_score", if String.eqb distribution "normal" then PFloat z_score else PNone);
      ("t_score", if String.eqb distribution "t" then PFloat t_score else PNone);
      ("degrees_of_freedom", if String.eqb distribution "t" then PInt df else PNone)
    ]%string in
  Ok (VaRResult.mk
        ("Parametric VaR (" ++ title distribution ++ ")")%string confidence_level
        var_value var_percentage cvar_value cvar_percentage expected_shortfall
        portfolio_val now_isoformat (length returns_array)
        volatility skewness kurtosis additional_stats).

(** *** calculate_monte_carlo_var *)
Definition calculate_monte_carlo_var
    (returns : list Q) (confidence_level : Q) (simulations : Z)
    (portfolio_value : option Q) : result VaRResult.t :=
  if is_empty returns then Raise ValueError_empty_returns else
  let portfolio_val := py_or portfolio_value (VaRCalculator.portfolio_value self) in
  let returns_array := returns in
  let mean_return := np_mean returns_array in
  let volatility := np_std returns_array in
  let skewness := stats_skew returns_array in
  let kurtosis := stats_kurtosis returns_array in
  simulated_returns <-
    (if (simulations <? 0)%Z then Raise ValueError_negative_size
     else Ok (random_normal mean_return volatility (Z.to_nat simulations))) ;;
  let percentile := (1 - confidence_level) * 100 in
  var_return <- np_percentile simulated_returns percentile ;;
  let var_value := Qabs (var_return * portfolio_val) in
  let var_percentage := Qabs var_return * 100 in
  let tail_returns := tail_of simulated_returns var_return in
  let cvar_return := np_mean tail_returns in
  let cvar_value := Qabs (cvar_return * portfolio_val) in
  let cvar_percentage := Qabs cvar_return * 100 in
  let expected_shortfall := cvar_value in
  let additional_stats :=
    [ ("simulations", PInt simulations);
      ("simulated_mean", PFloat (np_mean simulated_returns));
      ("simulated_std", PFloat (np_std simulated_returns));
      ("percentile_used", PFloat percentile);
      ("tail_observations", PInt (Z.of_nat (length tail_returns))) ]%string in
  Ok (VaRResult.mk "Monte Carlo VaR" confidence_level
        var_value var_percentage cvar_value cvar_percentage expected_shortfall
        portfolio_val now_isoformat (length returns_array)
        volatility skewness kurtosis additional_stats).

(** *** calculate_hybrid_var *)
Definition default_weights : list (string * Q) :=
  [ ("historical", 4 # 10); ("parametric", 3 # 10); ("monte_carlo", 3 # 10) ]%string.

Definition calculate_hybrid_var
    (returns : list Q) (confidence_level : Q)
    (weights : option (list (string * Q))) (portfolio_value : option Q)
    : result VaRResult.t :=
  if is_empty returns then Raise ValueError_empty_returns else
  let weights := match weights with None => default_weights | Some w => w end in
  hist_var <- calculate_historical_var returns confidence_level portfolio_value ;;
  param_var <- calculate_parametric_var returns confidence_level "normal" portfolio_value ;;
  mc_var <- calculate_monte_carlo_var returns confidence_level 5000 portfolio_value ;;
  w_hist <- getitem weights "historical" ;;
  w_param <- getitem weights "parametric" ;;
  w_mc <- getitem weights "monte_carlo" ;;
  let hybrid_var_value :=
    w_hist * VaRResult.var_value hist_var +
    w_param * VaRResult.var_value param_var +
    w_mc * VaRResult.var_value mc_var in
  let hybrid_cvar_value :=
    w_hist * VaRResult.cvar_value hist_var +
    w_param * VaRResult.cvar_value param_var +
    w_mc * VaRResult.cvar_value mc_var in
  let portfolio_val := py_or portfolio_value (VaRCalculator.portfolio_value self) in
  let hybrid_var_percentage := (hybrid_var_value / portfolio_val) * 100 in
  let hybrid_cvar_percentage := (hybrid_cvar_value / portfolio_val) * 100 in
  let returns_array := returns in
  let volatility := np_std returns_array in
  let skewness := stats_skew returns_array in
  let kurtosis := stats_kurtosis returns_array in
  let h := VaRResult.var_value hist_var in
  let p := VaRResult.var_value param_var in
  let m := VaRResult.var_value mc_var in
  let additional_stats :=
    [ ("weights", PDict (map (fun kv => (fst kv, PFloat (snd kv))) weights));
      ("historical_var", PFloat h);
      ("parametric_var", PFloat p);
      ("monte_carlo_var", PFloat m);
      ("method_agreement",
       PDict [ ("hist_param_diff", PFloat (Qabs (h - p)));
               ("hist_mc_diff", PFloat (Qabs (h - m)));
               ("param_mc_diff", PFloat (Qabs (p - m))) ]) ]%string in
  Ok (VaRResult.mk "Hybrid VaR" confidence_level
        hybrid_var_value hybrid_var_percentage
        hybrid_cvar_value hybrid_cvar_percentage hybrid_cvar_value
        portfolio_val now_isoformat (length returns_array)
        volatility skewness kurtosis additional_stats).
End Calculator.

(** ** Correlation matrix (numpy) *)

Section Corrcoef.
Context {rt : Runtime}.

(** [np.array] of a nested list: the rows must have one common length. *)
Definition np_array2 (rows : list (list Q)) : result (list (list Q)) :=
  match rows with
  | [] => Ok []
  | r :: rs =>
      if forallb (fun r' => (length r' =? length r)%nat) rs then Ok rows
      else Raise ValueError_inhomogeneous
  end.

Definition center (x : list Q) : list Q :=
  let avg := np_mean x in map (fun v => v - avg) x.

Fixpoint dot (x y : list Q) : Q :=
  match x, y with
  | a :: x', b :: y' => a * b + dot x' y'
  | _, _ => 0
  end.

(** One entry of [np.cov] (normalised by [N - 1]); with a single
    observation numpy multiplies a zero product by [1/0.0].  The rows are
    centred with the exact mean and the divisions of [corr_entry] are
    exact: the values of the entries are those of binary64 up to
    rounding, their shape and their range after clipping are the same. *)
Definition cov_entry (x y : list Q) : pyfloat :=
  let n := length x in
  if (n <=? 1)%nat then NaN
  else Fin (dot (center x) (center y) / nat_Q (n - 1)).

Definition np_clip (x : pyfloat) : pyfloat :=
  match x with
  | Fin q => Fin (if Qle_bool q (-1) then -1 else if Qle_bool 1 q then 1 else q)
  | PosInf => Fin 1
  | NegInf => Fin (-1)
  | NaN => NaN
  end.

Definition stddev_of (c : pyfloat) : option Q :=
  match c with Fin v => Some (np_sqrt v) | _ => None end.

(** [c /= stddev[:, None]; c /= stddev[None, :]; clip(c, -1, 1)]. *)
Definition corr_entry (x y : list Q) : pyfloat :=
  match stddev_of (cov_entry x x), stddev_of (cov_entry y y) with
  | Some sx, Some sy =>
      np_clip (pyfloat_div (pyfloat_div (cov_entry x y) sx) sy)
  | _, _ => NaN
  end.

(** [np.corrcoef(x).tolist()] for a two-dimensional [x] whose rows are
    the variables; one row gives the scalar [c / c]. *)
Definition np_corrcoef (x : list (list Q)) : corrcoef_value :=
  match x with
  | [r] =>
      CorrScalar (match cov_entry r r with
                  | Fin c => pyfloat_div (Fin c) c
                  | _ => NaN
                  end)
  | _ => CorrMatrix (map (fun xi => map (fun xj => corr_entry xi xj) x) x)
  end.
End Corrcoef.

(** ** Portfolio aggregation and backtest *)

Section Portfolio.
Context {rt : Runtime}.
Variable self : VaRCalculator.t.

(** [d[k] = v] on an insertion-ordered dictionary. *)
Fixpoint setitem {A : Type} (d : list (string * A)) (k : string) (v : A)
    : list (string * A) :=
  match d with
  | [] => [(k, v)]
  | (k', v') :: d' =>
      if String.eqb k' k then (k, v) :: d' else (k', v') :: setitem d' k v
  end.

(** The estimator chosen by [method]: historical, otherwise parametric
    with the normal distribution. *)
Definition base_var (method : string) (returns : list Q)
    (confidence_level : Q) (value : Q) : result VaRResult.t :=
  if String.eqb method "historical" then
    calculate_historical_var self returns confidence_level (Some value)
  else
    calculate_parametric_var self returns confidence_level "normal" (Some value).

(** The loop over [assets_returns.items()]: the individual VaR of every
    asset and the rows of the return matrix. *)
Fixpoint individual_loop (items : list (string * list Q))
    (weights : list (string * Q)) (confidence_level : Q) (method : string)
    (portfolio_val : Q) (individual_vars : list (string * Q))
    (returns_matrix : list (list Q))
    : result (list (string * Q) * list (list Q)) :=
  match items with
  | [] => Ok (individual_vars, returns_matrix)
  | (asset, returns) :: items' =>
      w <- getitem weights asset ;;
      var_result <- base_var method returns confidence_level (portfolio_val * w) ;;
      individual_loop items' weights confidence_level method portfolio_val
        (setitem individual_vars asset (VaRResult.var_value var_result))
        (returns_matrix ++ [returns])
  end.

Fixpoint py_min_nat (m : nat) (l : list nat) : nat :=
  match l with
  | [] => m
  | x :: l' => py_min_nat (Nat.min m x) l'
  end.

(** [sum(weights[asset] * assets_returns[asset][i] for asset in asset_names)]. *)
Fixpoint weighted_sum (items : list (string * list Q))
    (weights : list (string * Q)) (i : nat) (acc : Q) : result Q :=
  match items with
  | [] => Ok acc
  | (asset, returns) :: items' =>
      w <- getitem weights asset ;;
      weighted_sum items' weights i (acc + w * nth i returns 0)
  end.

Fixpoint portfolio_returns_loop (items : list (string * list Q))
    (weights : list (string * Q)) (indices : list nat) : result (list Q) :=
  match indices with
  | [] => Ok []
  | i :: indices' =>
      portfolio_return <- weighted_sum items weights i 0 ;;
      rest <- portfolio_returns_loop items weights indices' ;;
      Ok (portfolio_return :: rest)
  end.

(** *** calculate_portfolio_var; [assets_returns] is a dictionary, so its
    keys are pairwise distinct. *)
Definition calculate_portfolio_var
    (assets_returns : list (string * list Q)) (weights : list (string * Q))
    (confidence_level : Q) (method : string) (portfolio_value : option Q)
    : result PortfolioVaRResult.t :=
  if is_empty assets_returns then Raise ValueError_empty_assets else
  let portfolio_val := py_or portfolio_value (VaRCalculator.portfolio_value self) in
  loop <- individual_loop assets_returns weights confidence_level method
            portfolio_val [] [] ;;
  let '(individual_vars, returns_matrix) := loop in
  returns_array <- np_array2 returns_matrix ;;
  let correlation_matrix := np_corrcoef returns_array in
  let min_length :=
    match map (fun kv => length (snd kv)) assets_returns with
    | [] => 0%nat
    | n :: ns => py_min_nat n ns
    end in
  portfolio_returns <-
    portfolio_returns_loop assets_returns weights (seq 0 min_length) ;;
  portfolio_var_result <-
    base_var method portfolio_returns confidence_level portfolio_val ;;
  let portfolio_var := VaRResult.var_value portfolio_var_result in
  let sum_individual_vars := np_sum (map snd individual_vars) in
  let diversification_benefit := sum_individual_vars - portfolio_var in
  let portfolio_volatility := np_std portfolio_returns in
  Ok (PortfolioVaRResult.mk individual_vars portfolio_var
        diversification_benefit correlation_matrix portfolio_volatility
        now_isoformat).

(** *** validate_var_model

    The count of violations, its comparisons and the branches of the
    Kupiec block are those of the code.  The product under [int(...)] and
    the likelihood ratio are the exact ones: binary64 rounds the product
    before truncating it, and at a confidence level of exactly 0 or 1 one
    quotient of the ratio has a zero denominator, where numpy yields an
    infinity.  What is stated below about the validator is the same
    either way. *)
Fixpoint count_violations (returns var_estimates : list Q) : nat :=
  match returns, var_estimates with
  | r :: returns', v :: var_estimates' =>
      ((if Qle_bool (- v) r then 0 else 1) + count_violations returns' var_estimates')%nat
  | _, _ => 0%nat
  end.

Definition validate_var_model
    (returns var_estimates : list Q) (confidence_level : Q) (method : string)
    : result VaRValidationResult.t :=
  if negb (length returns =? length var_estimates)%nat
  then Raise ValueError_length_mismatch else
  let violations := count_violations returns var_estimates in
  let total_observations := length returns in
  let violation_rate :=
    pyfloat_div (Fin (nat_Q violations)) (nat_Q total_observations) in
  let expected_violations :=
    py_int (nat_Q total_observations * (1 - confidence_level)) in
  let '(kupiec_statistic, kupiec_p_value) :=
    if (violations =? 0)%nat then (Fin 0, 1)
    else
      let p_expected := 1 - confidence_level in
      match violation_rate with
      | Fin p_observed =>
          if negb (Qle_bool p_observed 0) && negb (Qle_bool 1 p_observed) then
            let lr_statistic :=
              2 * (nat_Q violations * np_log (p_observed / p_expected) +
                   (nat_Q total_observations - nat_Q violations) *
                   np_log ((1 - p_observed) / (1 - p_expected))) in
            (Fin lr_statistic, 1 - chi2_cdf lr_statistic 1)
          else (PosInf, 0)
      | _ => (PosInf, 0)
      end in
  let is_model_valid := negb (Qle_bool kupiec_p_value (5 # 100)) in
  Ok (VaRValidationResult.mk method confidence_level violations
        total_observations violation_rate expected_violations
        kupiec_statistic kupiec_p_value is_model_valid now_isoformat).
End Portfolio.

(** ** Auxiliary definitions for the statements *)

(** The sample [calculate_monte_carlo_var] draws for a given series. *)
Definition simulated {rt : Runtime} (returns : list Q) (simulations : Z) : list Q :=
  random_normal (np_mean returns) (np_std returns) (Z.to_nat simulations).

(** The estimator the aggregator runs for one asset, called without a
    portfolio value. *)
Definition base_var_default {rt : Runtime} (self : VaRCalculator.t)
    (method : string) (returns : list Q) (c : Q) : result VaRResult.t :=
  if String.eqb method "historical" then
    calculate_historical_var self returns c None
  else calculate_parametric_var self returns c "normal" None.

(** The return quantile of the parametric estimator. *)
Definition parametric_quantile {rt : Runtime}
    (returns : list Q) (c : Q) (distribution : string) : Q :=
  if String.eqb distribution "normal"
  then np_mean returns + norm_ppf (1 - c) * np_std returns
  else np_mean returns +
       t_ppf (1 - c) (Z.of_nat (length returns) - 1) * np_std returns.

(** The return behind the parametric CVaR: the closed form of the normal
    tail expectation, or 1.2 times the quantile. *)
Definition parametric_tail {rt : Runtime}
    (returns : list Q) (c : Q) (distribution : string) : Q :=
  if String.eqb distribution "normal"
  then np_mean returns - np_std returns * norm_pdf (norm_ppf (1 - c)) / (1 - c)
  else parametric_quantile returns c distribution * (12 # 10).

(** The facts shared by the results of the three single-method
    estimators: nothing is negative, and the expected shortfall is the
    CVaR. *)
Definition well_formed (r : VaRResult.t) : Prop :=
  0 <= VaRResult.var_value r /\ 0 <= VaRResult.var_percentage r /\
  0 <= VaRResult.cvar_value r /\ 0 <= VaRResult.cvar_percentage r /\
  VaRResult.expected_shortfall r = VaRResult.cvar_value r.

(** The confidence levels at which [1 - confidence_level], as a binary64
    float, lies strictly between 0 and 1, where [norm.ppf] and [t.ppf]
    are finite: from [2^-53] (for smaller positive levels the difference
    can round to 1.0) up to, and excluding, 1. *)
Definition ppf_finite (confidence_level : Q) : Prop :=
  1 # 2 ^ 53 <= confidence_level /\ confidence_level < 1.

(** The Kupiec block of [validate_var_model]: the statistic and the
    p-value for a number of violations among a number of observations. *)
Definition kupiec_test {rt : Runtime} (violations total_observations : nat)
    (confidence_level : Q) : pyfloat * Q :=
  if (violations =? 0)%nat then (Fin 0, 1)
  else
    let p_expected := 1 - confidence_level in
    match pyfloat_div (Fin (nat_Q violations)) (nat_Q total_observations) with
    | Fin p_observed =>
        if negb (Qle_bool p_observed 0) && negb (Qle_bool 1 p_observed) then
          let lr_statistic :=
            2 * (nat_Q violations * np_log (p_observed / p_expected) +
                 (nat_Q total_observations - nat_Q violations) *
                 np_log ((1 - p_observed) / (1 - p_expected))) in
          (Fin lr_statistic, 1 - chi2_cdf lr_statistic 1)
        else (PosInf, 0)
    | _ => (PosInf, 0)
    end.

(** An entry of a correlation matrix: not a number, or a number in
    [-1, 1]. *)
Definition is_correlation (e : pyfloat) : Prop :=
  e = NaN \/ exists x, e = Fin x /\ -1 <= x /\ x <= 1.

(** ** A runnable environment

    Coarse rational stand-ins for the library functions, so that the
    calculator can be evaluated on examples. *)

Definition toy_sqrt (x : Q) : Q :=
  if Qle_bool x 0 then 0
  else inject_Z (Z.sqrt (Qfloor (x * 1000000000000))) / 1000000.

Definition toy_normal (loc scale : Q) (size : nat) : list Q :=
  map (fun i => loc + scale * (nat_Q (i mod 5) - 2)) (seq 0 size).

Lemma toy_sqrt_zero : forall x, x == 0 -> toy_sqrt x == 0.
Proof.
  intros x Hx. unfold toy_sqrt.
  assert (H : Qle_bool x 0 = true) by (apply Qle_bool_iff; rewrite Hx; apply Qle_refl).
  rewrite H. reflexivity.
Qed.

Lemma toy_normal_size :
  forall loc scale size, length (toy_normal loc scale size) = size.
Proof.
  intros. unfold toy_normal. rewrite length_map. apply length_seq.
Qed.

Definition toy_runtime_with (fill : pyfloat)
    (Hfill : fill = NaN \/ fill = Fin 0) : Runtime :=
  {| np_sqrt := toy_sqrt;
     np_log := fun x => x - 1;
     norm_ppf := fun p => (p - (1 # 2)) * 4;
     norm_pdf := fun _ => 1 # 10;
     t_ppf := fun p _ => (p - (1 # 2)) * 5;
     chi2_cdf := fun x _ => if Qle_bool x 0 then 0 else if Qle_bool 4 x then 1 else x / 4;
     random_normal := toy_normal;
     moment_fill := fill;
     now_isoformat := "2025-01-25T00:00:00";
     np_sqrt_zero := toy_sqrt_zero;
     random_normal_size := toy_normal_size;
     moment_fill_cases := Hfill |}.

(** scipy 1.9 and later fill with [nan]; earlier releases with [0]. *)
Definition toy_runtime : Runtime := toy_runtime_with NaN (or_introl eq_refl).

Definition sample_returns : list Q :=
  [ -0.05; -0.03; -0.01; 0.01; 0.02; 0.03; -0.02; 0.01; -0.01; 0.02 ].

(** * Properties *)

(** ** Sorting and order statistics *)

Lemma Qle_bool_trans : Transitive (fun x y : Q => is_true (Qle_bool x y)).
Proof.
  intros x y z Hxy Hyz. unfold is_true in *.
  rewrite Qle_bool_iff in *. eapply Qle_trans; eassumption.
Qed.

Lemma np_sort_perm (a : list Q) : Permutation a (np_sort a).
Proof. apply QSort.Permuted_sort. Qed.

Lemma np_sort_length (a : list Q) : length (np_sort a) = length a.
Proof. symmetry. apply Permutation_length, np_sort_perm. Qed.

Lemma np_sort_sorted (a : list Q) : StronglySorted Qle (np_sort a).
Proof.
  pose proof (QSort.StronglySorted_sort a Qle_bool_trans) as H.
  fold (np_sort a) in H.
  induction H as [| x l Hl IH Hx]; constructor; auto.
  eapply Forall_impl; [| exact Hx].
  intros y Hy. apply Qle_bool_iff. exact Hy.
Qed.

Lemma sorted_nth_le (l : list Q) :
  StronglySorted Qle l ->
  forall i j, (i <= j)%nat -> (j < length l)%nat -> nth i l 0 <= nth j l 0.
Proof.
  induction 1 as [| x l Hl IH Hx]; intros i j Hij Hj; simpl in *; [lia |].
  destruct i as [| i], j as [| j]; try lia.
  - apply Qle_refl.
  - rewrite Forall_forall in Hx. apply Hx, nth_In. lia.
  - apply IH; lia.
Qed.

Lemma np_sort_nth_In (a : list Q) (i : nat) :
  (i < length a)%nat -> In (nth i (np_sort a) 0) a.
Proof.
  intros Hi. eapply Permutation_in.
  - apply Permutation_sym, np_sort_perm.
  - apply nth_In. rewrite np_sort_length. exact Hi.
Qed.

Lemma lerp_linear (a b t : Q) : lerp a b t == a + (b - a) * t.
Proof. unfold lerp. destruct (Qle_bool (1 # 2) t); ring. Qed.

Lemma floor_gamma (h : Q) :
  0 <= h - inject_Z (Qfloor h) /\ h - inject_Z (Qfloor h) < 1.
Proof.
  pose proof (Qfloor_le h) as H1. pose proof (Qlt_floor h) as H2.
  rewrite inject_Z_plus in H2. change (inject_Z 1) with 1 in H2.
  split; lra.
Qed.

Lemma floor_index (h : Q) (n : nat) :
  0 <= h -> h <= nat_Q n -> (Z.to_nat (Qfloor h) <= n)%nat.
Proof.
  intros H0 Hn.
  assert (Hlo : (0 <= Qfloor h)%Z).
  { change 0%Z with (Qfloor 0). apply Qfloor_resp_le. exact H0. }
  assert (Hhi : (Qfloor h <= Z.of_nat n)%Z).
  { rewrite <- (Qfloor_Z (Z.of_nat n)). apply Qfloor_resp_le. exact Hn. }
  lia.
Qed.

Lemma interpolate_bounds (arr : list Q) (h : Q) :
  StronglySorted Qle arr -> arr <> [] ->
  0 <= h -> h <= nat_Q (length arr - 1) ->
  let k := Z.to_nat (Qfloor h) in
  nth k arr 0 <= interpolate arr h /\
  interpolate arr h <= nth (Nat.min (k + 1) (length arr - 1)) arr 0.
Proof.
  intros Hs Hne H0 Hn k.
  assert (Hlen : (0 < length arr)%nat) by (destruct arr; simpl; [congruence | lia]).
  pose proof (floor_index h _ H0 Hn) as Hk. fold k in Hk.
  pose proof (floor_gamma h) as [Hg0 Hg1].
  assert (Hle : nth k arr 0 <= nth (Nat.min (k + 1) (length arr - 1)) arr 0).
  { apply sorted_nth_le; auto; lia. }
  unfold interpolate. fold k. rewrite lerp_linear.
  set (a := nth k arr 0) in *.
  set (b := nth (Nat.min (k + 1) (length arr - 1)) arr 0) in *.
  set (g := h - inject_Z (Qfloor h)) in *.
  assert (Hd : 0 <= b - a) by lra.
  pose proof (Qmult_le_0_compat _ _ Hd Hg0) as Hm.
  assert (Hm' : (b - a) * g <= (b - a) * 1).
  { rewrite !(Qmult_comm (b - a)). apply Qmult_le_compat_r; lra. }
  split; lra.
Qed.

Lemma interpolate_mono (arr : list Q) (h1 h2 : Q) :
  StronglySorted Qle arr -> arr <> [] ->
  0 <= h1 -> h1 <= h2 -> h2 <= nat_Q (length arr - 1) ->
  interpolate arr h1 <= interpolate arr h2.
Proof.
  intros Hs Hne H0 H12 Hn.
  assert (Hlen : (0 < length arr)%nat) by (destruct arr; simpl; [congruence | lia]).
  assert (H1n : h1 <= nat_Q (length arr - 1)) by lra.
  assert (H02 : 0 <= h2) by lra.
  pose proof (interpolate_bounds arr h1 Hs Hne H0 H1n) as [_ Hup].
  pose proof (interpolate_bounds arr h2 Hs Hne H02 Hn) as [Hlo _].
  pose proof (floor_index h2 _ H02 Hn) as Hk2.
  pose proof (Qfloor_resp_le _ _ H12) as Hfl.
  assert (Hf0 : (0 <= Qfloor h1)%Z).
  { change 0%Z with (Qfloor 0). apply Qfloor_resp_le. exact H0. }
  destruct (Z.eq_dec (Qfloor h1) (Qfloor h2)) as [Heq | Hneq].
  - unfold interpolate. rewrite !lerp_linear, Heq.
    set (k := Z.to_nat (Qfloor h2)) in *.
    assert (Hd : 0 <= nth (Nat.min (k + 1) (length arr - 1)) arr 0 - nth k arr 0).
    { assert (nth k arr 0 <= nth (Nat.min (k + 1) (length arr - 1)) arr 0)
        by (apply sorted_nth_le; auto; lia). lra. }
    set (d := nth (Nat.min (k + 1) (length arr - 1)) arr 0 - nth k arr 0) in *.
    assert (Hm : d * (h1 - inject_Z (Qfloor h2)) <= d * (h2 - inject_Z (Qfloor h2))).
    { rewrite !(Qmult_comm d). apply Qmult_le_compat_r; lra. }
    lra.
  - eapply Qle_trans; [exact Hup |]. eapply Qle_trans; [| exact Hlo].
    apply sorted_nth_le; auto; lia.
Qed.

(** ** The percentile *)

Lemma nat_Q_nonneg (n : nat) : 0 <= nat_Q n.
Proof.
  unfold nat_Q. change 0 with (inject_Z 0). rewrite <- Zle_Qle. lia.
Qed.

Lemma nat_Q_pos (n : nat) : (0 < n)%nat -> 0 < nat_Q n.
Proof.
  intros H. unfold nat_Q. change 0 with (inject_Z 0). rewrite <- Zlt_Qlt. lia.
Qed.

Lemma virtual_index_bounds (n : nat) (p : Q) :
  0 <= p -> p <= 100 -> 0 <= virtual_index n p /\ virtual_index n p <= nat_Q (n - 1).
Proof.
  intros H0 H1. unfold virtual_index.
  pose proof (nat_Q_nonneg (n - 1)) as Hn.
  assert (Hp0 : 0 <= p / 100) by (apply Qle_shift_div_l; lra).
  assert (Hp1 : p / 100 <= 1) by (apply Qle_shift_div_r; lra).
  split.
  - apply Qmult_le_0_compat; assumption.
  - setoid_replace (nat_Q (n - 1)) with (1 * nat_Q (n - 1)) at 2 by ring.
    apply Qmult_le_compat_r; assumption.
Qed.

Lemma virtual_index_mono (n : nat) (p1 p2 : Q) :
  p1 <= p2 -> virtual_index n p1 <= virtual_index n p2.
Proof.
  intros H. unfold virtual_index.
  apply Qmult_le_compat_r; [| apply nat_Q_nonneg].
  unfold Qdiv. apply Qmult_le_compat_r; [exact H | discriminate].
Qed.

Lemma percentile_in_range (p : Q) :
  0 <= p -> p <= 100 -> negb (Qle_bool 0 p && Qle_bool p 100) = false.
Proof.
  intros H0 H1.
  apply (proj2 (Qle_bool_iff 0 p)) in H0. apply (proj2 (Qle_bool_iff p 100)) in H1.
  rewrite H0, H1. reflexivity.
Qed.

(** On a non-empty array and a percentile in range, [np_percentile]
    returns the interpolation of the sorted array at the virtual index. *)
Lemma np_percentile_interpolate (a : list Q) (p : Q) :
  a <> [] -> 0 <= p -> p <= 100 ->
  np_percentile a p = Ok (interpolate (np_sort a) (virtual_index (length a) p)).
Proof.
  intros Hne H0 H1. unfold np_percentile.
  rewrite (percentile_in_range p H0 H1).
  destruct a as [| x a']; [congruence |].
  unfold interpolate, virtual_index, nat_Q. rewrite np_sort_length. reflexivity.
Qed.

Lemma np_sort_nonempty (a : list Q) : a <> [] -> np_sort a <> [].
Proof.
  intros Hne Hs. apply Hne. apply length_zero_iff_nil.
  rewrite <- np_sort_length, Hs. reflexivity.
Qed.

(** The percentile is at least some element of the array. *)
Lemma np_percentile_above_element (a : list Q) (p q : Q) :
  a <> [] -> 0 <= p -> p <= 100 -> np_percentile a p = Ok q ->
  exists x, In x a /\ x <= q.
Proof.
  intros Hne H0 H1 Hq.
  rewrite (np_percentile_interpolate a p Hne H0 H1) in Hq. injection Hq as <-.
  destruct (virtual_index_bounds (length a) p H0 H1) as [Hv0 Hv1].
  assert (Hlen : (0 < length a)%nat) by (destruct a; simpl; [congruence | lia]).
  assert (Hv1' : virtual_index (length a) p <= nat_Q (length (np_sort a) - 1))
    by (rewrite np_sort_length; exact Hv1).
  pose proof (interpolate_bounds (np_sort a) _ (np_sort_sorted a)
                (np_sort_nonempty a Hne) Hv0 Hv1') as [Hlo _].
  pose proof (floor_index _ _ Hv0 Hv1) as Hk.
  eexists. split; [| exact Hlo].
  apply np_sort_nth_In. lia.
Qed.

(** The percentile does not increase when the percentage decreases. *)
Lemma np_percentile_mono (a : list Q) (p1 p2 q1 q2 : Q) :
  a <> [] -> 0 <= p1 -> p1 <= p2 -> p2 <= 100 ->
  np_percentile a p1 = Ok q1 -> np_percentile a p2 = Ok q2 -> q1 <= q2.
Proof.
  intros Hne H0 H12 H1 Hq1 Hq2.
  rewrite np_percentile_interpolate in Hq1, Hq2 by (auto; lra).
  injection Hq1 as <-. injection Hq2 as <-.
  destruct (virtual_index_bounds (length a) p1) as [Hv0 _]; [lra | lra |].
  destruct (virtual_index_bounds (length a) p2) as [_ Hv1]; [lra | lra |].
  apply interpolate_mono; auto using np_sort_sorted, np_sort_nonempty.
  2: rewrite np_sort_length; exact Hv1.
  apply virtual_index_mono. exact H12.
Qed.

(** ** Minimum, sums and means *)

Lemma np_min_from_spec (a : list Q) (m : Q) :
  (np_min_from m a <= m /\ forall x, In x a -> np_min_from m a <= x) /\
  (np_min_from m a = m \/ In (np_min_from m a) a).
Proof.
  revert m. induction a as [| y a IH]; intros m; simpl.
  - split; [split; [apply Qle_refl | tauto] | left; reflexivity].
  - destruct (IH (if Qle_bool m y then m else y)) as [[Hle Hall] Hin].
    destruct (Qle_bool m y) eqn:E.
    + apply Qle_bool_iff in E. split; [split |].
      * exact Hle.
      * intros x [<- | Hx]; [lra | auto].
      * destruct Hin as [-> | Hin]; auto.
    + assert (Hym : y <= m).
      { destruct (Qlt_le_dec y m) as [H | H]; [lra |].
        apply Qle_bool_iff in H. congruence. }
      split; [split |].
      * lra.
      * intros x [<- | Hx]; auto.
      * destruct Hin as [-> | Hin]; auto.
Qed.

Lemma np_min_le (a : list Q) (x : Q) : In x a -> np_min a <= x.
Proof.
  destruct a as [| y a]; simpl; [tauto |].
  destruct (np_min_from_spec a y) as [[Hle Hall] _].
  intros [<- | Hx]; auto.
Qed.

Lemma np_min_In (a : list Q) : a <> [] -> In (np_min a) a.
Proof.
  destruct a as [| y a]; [congruence |]. intros _. simpl.
  destruct (np_min_from_spec a y) as [_ [-> | Hin]]; auto.
Qed.

Lemma fold_left_Qplus (a : list Q) (acc : Q) :
  fold_left Qplus a acc == acc + fold_left Qplus a 0.
Proof.
  revert acc. induction a as [| x a IH]; intros acc; simpl.
  - ring.
  - rewrite (IH (acc + x)), (IH (0 + x)). ring.
Qed.

Lemma np_sum_cons (x : Q) (a : list Q) : np_sum (x :: a) == x + np_sum a.
Proof.
  unfold np_sum. simpl. rewrite fold_left_Qplus. ring.
Qed.




Lemma tail_contains (a : list Q) (q x : Q) :
  In x a -> x <= q -> In x (filter (fun y => Qle_bool y q) a).
Proof.
  intros Hin Hle. apply filter_In. split; [exact Hin |].
  apply Qle_bool_iff. exact Hle.
Qed.

(** ** The historical estimator *)

Section HistoricalFacts.
Context {rt : Runtime}.
Variable self : VaRCalculator.t.

(** What [calculate_historical_var] returns once the percentile is known. *)
Lemma calculate_historical_var_ok (returns : list Q) (c : Q) (pv : option Q) (q : Q) :
  returns <> [] ->
  np_percentile returns ((1 - c) * 100) = Ok q ->
  let V := py_or pv (VaRCalculator.portfolio_value self) in
  exists r,
    calculate_historical_var self returns c pv = Ok r /\
    VaRResult.var_value r = Qabs (q * V) /\
    VaRResult.var_percentage r = Qabs q * 100 /\
    VaRResult.cvar_value r =
      (if (0 <? length (tail_of returns q))%nat
       then Qabs (np_mean (tail_of returns q) * V) else Qabs (q * V)) /\
    VaRResult.portfolio_value r = V /\
    VaRResult.volatility r = np_std returns /\
    VaRResult.skewness r = stats_skew returns /\
    VaRResult.kurtosis r = stats_kurtosis returns.
Proof.
  intros Hne Hq V. unfold calculate_historical_var.
  destruct returns as [| x xs]; [congruence |].
  cbv beta iota delta [is_empty]. rewrite Hq. cbv beta iota delta [bind].
  fold (tail_of (x :: xs) q). fold V.
  destruct (0 <? length (tail_of (x :: xs) q))%nat;
    eexists; (split; [reflexivity |]); repeat split.
Qed.

Lemma confidence_percentile (c : Q) :
  0 < c -> c < 1 -> 0 <= (1 - c) * 100 /\ (1 - c) * 100 <= 100.
Proof. intros. split; lra. Qed.

Lemma historical_percentile_exists (returns : list Q) (c : Q) :
  returns <> [] -> 0 < c -> c < 1 ->
  exists q, np_percentile returns ((1 - c) * 100) = Ok q.
Proof.
  intros Hne H0 H1. destruct (confidence_percentile c H0 H1) as [Hp0 Hp1].
  eexists. apply np_percentile_interpolate; assumption.
Qed.

(** The tail of a non-empty array at its percentile holds the minimum. *)
Lemma tail_holds_min (a : list Q) (p q : Q) :
  a <> [] -> 0 <= p -> p <= 100 -> np_percentile a p = Ok q ->
  np_min a <= q /\ In (np_min a) (tail_of a q) /\
  (0 <? length (tail_of a q))%nat = true.
Proof.
  intros Hne H0 H1 Hq.
  destruct (np_percentile_above_element a p q Hne H0 H1 Hq) as [x [Hx Hxq]].
  assert (Hmin : np_min a <= q).
  { eapply Qle_trans; [apply np_min_le; exact Hx | exact Hxq]. }
  assert (Hin : In (np_min a) (tail_of a q)).
  { apply tail_contains; [apply np_min_In; exact Hne | exact Hmin]. }
  repeat split; auto.
  apply Nat.ltb_lt. destruct (tail_of a q); simpl in *; [tauto | lia].
Qed.

(** Scaling a loss: for [m <= q <= 0] the absolute values are ordered the
    other way round, whatever the sign of the portfolio value. *)
Lemma Qabs_scaled_le (m q V : Q) :
  m <= q -> q <= 0 -> Qabs (q * V) <= Qabs (m * V).
Proof.
  intros Hmq Hq0. rewrite !Qabs_Qmult.
  apply Qmult_le_compat_r; [| apply Qabs_nonneg].
  rewrite (Qabs_neg q), (Qabs_neg m) by lra. lra.
Qed.

End HistoricalFacts.

(** ** The Monte Carlo estimator *)

Section MonteCarloFacts.
Context {rt : Runtime}.
Variable self : VaRCalculator.t.

Lemma simulated_nonempty (returns : list Q) (simulations : Z) :
  (0 < simulations)%Z -> simulated returns simulations <> [].
Proof.
  intros Hpos E. apply (f_equal (@length Q)) in E.
  unfold simulated in E. rewrite random_normal_size in E. simpl in E. lia.
Qed.

Lemma calculate_monte_carlo_var_ok
    (returns : list Q) (c : Q) (simulations : Z) (pv : option Q) (q : Q) :
  returns <> [] -> (0 <= simulations)%Z ->
  np_percentile (simulated returns simulations) ((1 - c) * 100) = Ok q ->
  let V := py_or pv (VaRCalculator.portfolio_value self) in
  exists r,
    calculate_monte_carlo_var self returns c simulations pv = Ok r /\
    VaRResult.var_value r = Qabs (q * V) /\
    VaRResult.var_percentage r = Qabs q * 100 /\
    VaRResult.cvar_value r =
      Qabs (np_mean (tail_of (simulated returns simulations) q) * V) /\
    VaRResult.portfolio_value r = V.
Proof.
  intros Hne Hsim Hq V. unfold calculate_monte_carlo_var.
  destruct returns as [| x xs]; [congruence |].
  cbv beta iota delta [is_empty].
  assert (Hneg : (simulations <? 0)%Z = false) by (apply Z.ltb_ge; exact Hsim).
  rewrite Hneg. cbv beta iota delta [bind].
  fold (simulated (x :: xs) simulations). rewrite Hq.
  eexists. split; [reflexivity |]. repeat split.
Qed.
End MonteCarloFacts.

(** * The claims *)

(** C1.  On the returns [-0.05, -0.03, -0.01, 0.01, 0.02, 0.03, -0.02,
    0.01, -0.01, 0.02] at confidence 0.95 and portfolio value 1,000,000 the
    percentile position is 0.45, between the order statistics -0.05 and
    -0.03; the interpolated quantile is -0.041, so [var_percentage] is 4.1
    and [var_value] is 41,000 (exactly, in rational arithmetic). *)
Theorem historical_concrete_scenario {rt : Runtime} (self : VaRCalculator.t) :
  np_sort sample_returns =
    [ -0.05; -0.03; -0.02; -0.01; -0.01; 0.01; 0.01; 0.02; 0.02; 0.03 ] /\
  virtual_index (length sample_returns) ((1 - 0.95) * 100) == 0.45 /\
  exists q r,
    np_percentile sample_returns ((1 - 0.95) * 100) = Ok q /\
    q == -0.05 + 0.45 * 0.02 /\ q == -0.041 /\
    calculate_historical_var self sample_returns 0.95 (Some 1000000) = Ok r /\
    VaRResult.var_percentage r == 4.1 /\
    VaRResult.var_value r == 41000.
Proof.
  split; [vm_compute; reflexivity |].
  split; [vm_compute; reflexivity |].
  assert (Hq : exists q, np_percentile sample_returns ((1 - 0.95) * 100) = Ok q /\
                         q == -0.041).
  { eexists. split; [vm_compute; reflexivity | vm_compute; reflexivity]. }
  destruct Hq as [q [Hq Hv]].
  destruct (calculate_historical_var_ok self sample_returns 0.95 (Some 1000000) q)
    as [r [Hr [Hvar [Hpct _]]]]; [discriminate | exact Hq |].
  exists q, r. repeat split; auto.
  - rewrite Hv. reflexivity.
  - rewrite Hpct, Hv. reflexivity.
  - rewrite Hvar, Hv. reflexivity.
Qed.




(** C4, as stated, fails.  On the all-gain series [0.01, 0.03] the
    quantile falls from +0.025 at confidence 0.25 to +0.015 at confidence
    0.75, and [var_value], its absolute value scaled, falls with it: 25,000
    at the lower confidence against 15,000 at the higher. *)
Lemma confidence_monotonicity_fails_on_gains :
  exists r1 r2,
    @calculate_historical_var toy_runtime VaRCalculator.default
      [0.01; 0.03] 0.25 (Some 1000000) = Ok r1 /\
    @calculate_historical_var toy_runtime VaRCalculator.default
      [0.01; 0.03] 0.75 (Some 1000000) = Ok r2 /\
    VaRResult.var_value r1 == 25000 /\
    VaRResult.var_value r2 == 15000 /\
    ~ (VaRResult.var_value r1 <= VaRResult.var_value r2).
Proof.
  eexists. eexists.
  split; [vm_compute; reflexivity |].
  split; [vm_compute; reflexivity |].
  split; [reflexivity |].
  split; [reflexivity |].
  intros H. vm_compute in H. apply H. reflexivity.
Qed.

(** C4, amended.  For a fixed non-empty series and portfolio value and
    confidence levels [c1 < c2] in (0,1), the quantile at [c2] is at most
    the quantile at [c1], whatever their signs; when the quantile at [c1]
    is a loss ([<= 0]) the historical [var_value] at [c1] is at most the
    one at [c2]. *)
Theorem confidence_monotonicity_for_losses {rt : Runtime} (self : VaRCalculator.t)
    (returns : list Q) (c1 c2 : Q) (pv : option Q) :
  returns <> [] -> 0 < c1 -> c1 < c2 -> c2 < 1 ->
  exists q1 q2 r1 r2,
    np_percentile returns ((1 - c1) * 100) = Ok q1 /\
    np_percentile returns ((1 - c2) * 100) = Ok q2 /\
    q2 <= q1 /\
    calculate_historical_var self returns c1 pv = Ok r1 /\
    calculate_historical_var self returns c2 pv = Ok r2 /\
    (q1 <= 0 -> VaRResult.var_value r1 <= VaRResult.var_value r2).
Proof.
  intros Hne H0 H12 H1.
  destruct (historical_percentile_exists returns c1 Hne) as [q1 Hq1]; [lra | lra |].
  destruct (historical_percentile_exists returns c2 Hne) as [q2 Hq2]; [lra | lra |].
  assert (Hq21 : q2 <= q1).
  { apply (np_percentile_mono returns ((1 - c2) * 100) ((1 - c1) * 100));
      auto; lra. }
  destruct (calculate_historical_var_ok self returns c1 pv q1 Hne Hq1)
    as [r1 [Hr1 [Hvar1 _]]].
  destruct (calculate_historical_var_ok self returns c2 pv q2 Hne Hq2)
    as [r2 [Hr2 [Hvar2 _]]].
  exists q1, q2, r1, r2. repeat split; auto.
  intros Hloss. rewrite Hvar1, Hvar2. apply Qabs_scaled_le; assumption.
Qed.

Lemma confidence_monotonicity_for_losses_witness :
  exists q1 q2 r1 r2,
    np_percentile sample_returns ((1 - 0.90) * 100) = Ok q1 /\
    np_percentile sample_returns ((1 - 0.99) * 100) = Ok q2 /\
    q2 <= q1 /\
    @calculate_historical_var toy_runtime VaRCalculator.default
      sample_returns 0.90 None = Ok r1 /\
    @calculate_historical_var toy_runtime VaRCalculator.default
      sample_returns 0.99 None = Ok r2 /\
    VaRResult.var_value r1 <= VaRResult.var_value r2.
Proof.
  destruct (@confidence_monotonicity_for_losses toy_runtime VaRCalculator.default
              sample_returns 0.90 0.99 None)
    as [q1 [q2 [r1 [r2 [Hq1 [Hq2 [Hq21 [Hr1 [Hr2 Hvar]]]]]]]]].
  - discriminate.
  - reflexivity.
  - reflexivity.
  - reflexivity.
  - exists q1, q2, r1, r2. repeat split; try assumption.
    apply Hvar. vm_compute in Hq1. injection Hq1 as <-. vm_compute. discriminate.
Defined.

(** C9.  For a non-empty series and a confidence level in (0,1) the
    interpolated percentile [q] is at least the minimum of the series, so
    the tail [{x : x <= q}] holds the minimum and is not empty: the guard
    [len(tail_returns) > 0] of the historical estimator is always true
    (its fallback branch is never taken), and the Monte Carlo estimator,
    whose simulated sample is not empty, averages a non-empty tail. *)
Theorem percentile_tail_never_empty {rt : Runtime} (self : VaRCalculator.t)
    (returns : list Q) (c : Q) (pv : option Q) :
  returns <> [] -> 0 < c -> c < 1 ->
  (exists q r,
     np_percentile returns ((1 - c) * 100) = Ok q /\
     np_min returns <= q /\
     In (np_min returns) (filter (fun x => Qle_bool x q) returns) /\
     (0 <? length (filter (fun x => Qle_bool x q) returns))%nat = true /\
     calculate_historical_var self returns c pv = Ok r /\
     VaRResult.cvar_value r =
       Qabs (np_mean (filter (fun x => Qle_bool x q) returns) *
             py_or pv (VaRCalculator.portfolio_value self))) /\
  (forall simulations, (0 < simulations)%Z ->
     let sample := simulated returns simulations in
     exists q r,
       np_percentile sample ((1 - c) * 100) = Ok q /\
       np_min sample <= q /\
       In (np_min sample) (filter (fun x => Qle_bool x q) sample) /\
       filter (fun x => Qle_bool x q) sample <> [] /\
       calculate_monte_carlo_var self returns c simulations pv = Ok r).
Proof.
  intros Hne Hc0 Hc1. destruct (confidence_percentile c Hc0 Hc1) as [Hp0 Hp1].
  split.
  - destruct (historical_percentile_exists returns c Hne Hc0 Hc1) as [q Hq].
    destruct (tail_holds_min returns _ q Hne Hp0 Hp1 Hq) as [Hmin [Hin Hlen]].
    destruct (calculate_historical_var_ok self returns c pv q Hne Hq)
      as [r [Hr [_ [_ [Hcvar _]]]]].
    rewrite Hlen in Hcvar. exists q, r. repeat split; assumption.
  - intros simulations Hsim sample.
    pose proof (simulated_nonempty returns simulations Hsim) as Hs.
    fold sample in Hs.
    destruct (np_percentile sample ((1 - c) * 100)) as [q | e] eqn:Hq.
    2: { rewrite np_percentile_interpolate in Hq by assumption. discriminate. }
    destruct (tail_holds_min sample _ q Hs Hp0 Hp1 Hq) as [Hmin [Hin Hlen]].
    destruct (calculate_monte_carlo_var_ok self returns c simulations pv q Hne
                ltac:(lia) Hq) as [r [Hr _]].
    exists q, r. repeat split; try assumption.
    intros E. unfold tail_of in Hin. rewrite E in Hin. exact Hin.
Qed.

Lemma percentile_tail_never_empty_witness :
  (exists q r,
     np_percentile sample_returns ((1 - 0.95) * 100) = Ok q /\
     np_min sample_returns <= q /\
     In (np_min sample_returns) (filter (fun x => Qle_bool x q) sample_returns) /\
     (0 <? length (filter (fun x => Qle_bool x q) sample_returns))%nat = true /\
     @calculate_historical_var toy_runtime VaRCalculator.default
       sample_returns 0.95 None = Ok r /\
     VaRResult.cvar_value r =
       Qabs (np_mean (filter (fun x => Qle_bool x q) sample_returns) *
             py_or None (VaRCalculator.portfolio_value VaRCalculator.default))) /\
  (exists q r,
     np_percentile (@simulated toy_runtime sample_returns 20) ((1 - 0.95) * 100) = Ok q /\
     filter (fun x => Qle_bool x q) (@simulated toy_runtime sample_returns 20) <> [] /\
     @calculate_monte_carlo_var toy_runtime VaRCalculator.default
       sample_returns 0.95 20 None = Ok r).
Proof.
  destruct (@percentile_tail_never_empty toy_runtime VaRCalculator.default
              sample_returns 0.95 None) as [Hh Hm].
  - discriminate.
  - reflexivity.
  - reflexivity.
  - split; [exact Hh |].
    destruct (Hm 20%Z eq_refl) as [q [r [Hq [_ [_ [Ht Hr]]]]]].
    exists q, r. repeat split; assumption.
Defined.

(** C6.  Each of the four single-asset estimators, called with an empty
    return series, raises the empty-input error and returns no result. *)
Theorem empty_series_rejected {rt : Runtime} (self : VaRCalculator.t)
    (c : Q) (pv : option Q) (distribution : string) (simulations : Z)
    (weights : option (list (string * Q))) :
  calculate_historical_var self [] c pv = Raise ValueError_empty_returns /\
  calculate_parametric_var self [] c distribution pv = Raise ValueError_empty_returns /\
  calculate_monte_carlo_var self [] c simulations pv = Raise ValueError_empty_returns /\
  calculate_hybrid_var self [] c weights pv = Raise ValueError_empty_returns.
Proof. repeat split. Qed.

(** C5.  On a non-empty series the parametric estimator returns a result
    for the selectors "normal" and "t" (the Student-t selector) and raises
    the unsupported-distribution error, carrying the selector, for every
    other one. *)
Theorem parametric_distribution_selector {rt : Runtime} (self : VaRCalculator.t)
    (returns : list Q) (c : Q) (distribution : string) (pv : option Q) :
  returns <> [] ->
  ((distribution = "normal" \/ distribution = "t")%string ->
   exists r, calculate_parametric_var self returns c distribution pv = Ok r) /\
  (distribution <> "normal"%string -> distribution <> "t"%string ->
   calculate_parametric_var self returns c distribution pv =
     Raise (ValueError_unsupported distribution)).
Proof.
  intros Hne. destruct returns as [| x xs]; [congruence |].
  unfold calculate_parametric_var. cbv beta iota delta [is_empty].
  split.
  - intros [-> | ->]; eexists; reflexivity.
  - intros Hn Ht.
    apply String.eqb_neq in Hn. apply String.eqb_neq in Ht.
    rewrite Hn, Ht. reflexivity.
Qed.

Lemma parametric_distribution_selector_witness :
  (exists r, @calculate_parametric_var toy_runtime VaRCalculator.default
               sample_returns 0.95 "normal" None = Ok r) /\
  (exists r, @calculate_parametric_var toy_runtime VaRCalculator.default
               sample_returns 0.95 "t" None = Ok r) /\
  @calculate_parametric_var toy_runtime VaRCalculator.default
    sample_returns 0.95 "invalid" None = Raise (ValueError_unsupported "invalid").
Proof.
  assert (Hne : sample_returns <> []) by discriminate.
  split; [| split].
  - apply (@parametric_distribution_selector toy_runtime VaRCalculator.default
             sample_returns 0.95 "normal" None Hne). left. reflexivity.
  - apply (@parametric_distribution_selector toy_runtime VaRCalculator.default
             sample_returns 0.95 "t" None Hne). right. reflexivity.
  - apply (@parametric_distribution_selector toy_runtime VaRCalculator.default
             sample_returns 0.95 "invalid" None Hne); discriminate.
Defined.

(** ** The backtest *)

Lemma count_violations_none (returns var_estimates : list Q) :
  (forall i r v, nth_error returns i = Some r -> nth_error var_estimates i = Some v ->
                 ~ r < - v) ->
  count_violations returns var_estimates = 0%nat.
Proof.
  revert var_estimates.
  induction returns as [| r returns IH]; intros [| v var_estimates] H; simpl; auto.
  assert (Hrv : Qle_bool (- v) r = true).
  { apply Qle_bool_iff. apply Qnot_lt_le. apply (H 0%nat r v); reflexivity. }
  rewrite Hrv. simpl. apply IH.
  intros i r' v' Hr' Hv'. apply (H (S i) r' v'); assumption.
Qed.

(** C3.  For realized returns and VaR estimates of equal length with no
    period where [return < -estimate], the validator returns a result with
    [violations = 0], [kupiec_statistic = 0.0], [kupiec_p_value = 1.0] and
    [is_model_valid = True]. *)
Theorem zero_violation_backtest {rt : Runtime}
    (returns var_estimates : list Q) (c : Q) (method : string) :
  length returns = length var_estimates ->
  (forall i r v, nth_error returns i = Some r -> nth_error var_estimates i = Some v ->
                 ~ r < - v) ->
  exists res,
    validate_var_model returns var_estimates c method = Ok res /\
    VaRValidationResult.violations res = 0%nat /\
    VaRValidationResult.kupiec_statistic res = Fin 0 /\
    VaRValidationResult.kupiec_p_value res = 1 /\
    VaRValidationResult.is_model_valid res = true.
Proof.
  intros Hlen Hnone. unfold validate_var_model.
  rewrite Hlen, Nat.eqb_refl. cbv beta iota delta [negb].
  rewrite (count_violations_none returns var_estimates Hnone).
  cbv beta iota delta [Nat.eqb].
  eexists. split; [reflexivity |]. repeat split.
Qed.

Lemma zero_violation_backtest_witness :
  exists res,
    @validate_var_model toy_runtime
      [0.01; 0.02; -0.01; 0.015; -0.005] [0.05; 0.05; 0.05; 0.05; 0.05]
      0.95 "historical" = Ok res /\
    VaRValidationResult.violations res = 0%nat /\
    VaRValidationResult.kupiec_statistic res = Fin 0 /\
    VaRValidationResult.kupiec_p_value res = 1 /\
    VaRValidationResult.is_model_valid res = true.
Proof.
  apply (@zero_violation_backtest toy_runtime).
  - reflexivity.
  - intros i r v Hr Hv.
    do 5 (destruct i as [| i];
          [ injection Hr as <-; injection Hv as <-; vm_compute; discriminate | ]).
    destruct i; discriminate.
Defined.

(** ** Statistics of a constant series *)

Section ConstantSeries.
Context {rt : Runtime}.

Lemma np_sum_const (a : list Q) (v : Q) :
  Forall (fun x => x == v) a -> np_sum a == nat_Q (length a) * v.
Proof.
  induction 1 as [| x a Hx Ha IH].
  - change (0 == 0 * v). ring.
  - assert (Hxv : x == v) by exact Hx.
    rewrite np_sum_cons, IH. unfold nat_Q.
    change (length (x :: a)) with (S (length a)). rewrite Hxv.
    rewrite Nat2Z.inj_succ. unfold Z.succ. rewrite inject_Z_plus.
    change (inject_Z 1) with 1. ring.
Qed.

Lemma np_mean_const (a : list Q) (v : Q) :
  a <> [] -> Forall (fun x => x == v) a -> np_mean a == v.
Proof.
  intros Hne Hall. unfold np_mean. rewrite (np_sum_const a v Hall).
  fold (nat_Q (length a)). field.
  assert (0 < nat_Q (length a)).
  { apply nat_Q_pos. destruct a; simpl; [congruence | lia]. }
  lra.
Qed.

Lemma moment_const (a : list Q) (v : Q) (k : positive) :
  a <> [] -> Forall (fun x => x == v) a -> moment a k (np_mean a) == 0.
Proof.
  intros Hne Hall. unfold moment. apply np_mean_const.
  - destruct a; simpl; congruence.
  - apply Forall_map. eapply Forall_impl; [| exact Hall].
    intros x Hx. cbv beta.
    assert (Hxv : x == v) by exact Hx.
    assert (Hz : x - np_mean a == 0).
    { rewrite Hxv, (np_mean_const a v Hne Hall). ring. }
    rewrite Hz. apply Qpower_positive_0.
Qed.

Lemma Qsquare_nonneg (y : Q) : 0 <= Qpower_positive y 2.
Proof.
  change (0 <= y * y).
  destruct (Qlt_le_dec y 0) as [H | H].
  - setoid_replace (y * y) with ((- y) * (- y)) by ring.
    apply Qmult_le_0_compat; lra.
  - apply Qmult_le_0_compat; exact H.
Qed.

Lemma moment_is_zero_const (a : list Q) (v : Q) :
  a <> [] -> Forall (fun x => x == v) a ->
  moment_is_zero (moment a 2 (np_mean a)) (np_mean a) = true.
Proof.
  intros Hne Hall. unfold moment_is_zero. apply Qle_bool_iff.
  rewrite (moment_const a v 2 Hne Hall).
  apply Qsquare_nonneg.
Qed.

Lemma constant_statistics (a : list Q) (v : Q) :
  a <> [] -> Forall (fun x => x == v) a ->
  np_std a == 0 /\ stats_skew a = moment_fill /\
  stats_kurtosis a = pyfloat_sub moment_fill 3.
Proof.
  intros Hne Hall. split; [| split].
  - unfold np_std. apply np_sqrt_zero. apply (moment_const a v 2 Hne Hall).
  - unfold stats_skew. rewrite (moment_is_zero_const a v Hne Hall). reflexivity.
  - unfold stats_kurtosis. rewrite (moment_is_zero_const a v Hne Hall). reflexivity.
Qed.
End ConstantSeries.




(** ** The portfolio value argument *)

Lemma py_or_zero (v d : Q) : v == 0 -> py_or (Some v) d = py_or None d.
Proof.
  intros Hv. unfold py_or.
  apply Qeq_bool_iff in Hv. rewrite Hv. reflexivity.
Qed.

Lemma getitem_setitem_same {A : Type} (d : list (string * A)) (k : string) (v : A) :
  getitem (setitem d k v) k = Ok v.
Proof.
  induction d as [| [k' v'] d IH]; simpl.
  - rewrite String.eqb_refl. reflexivity.
  - destruct (String.eqb k' k) eqn:E; simpl.
    + rewrite String.eqb_refl. reflexivity.
    + rewrite E. exact IH.
Qed.

Lemma getitem_setitem_other {A : Type} (d : list (string * A)) (k k' : string) (v : A) :
  k <> k' -> getitem (setitem d k v) k' = getitem d k'.
Proof.
  intros Hk. apply String.eqb_neq in Hk.
  induction d as [| [k0 v0] d IH]; simpl.
  - rewrite Hk. reflexivity.
  - destruct (String.eqb k0 k) eqn:E; simpl.
    + apply String.eqb_eq in E. subst k0. rewrite Hk. reflexivity.
    + destruct (String.eqb k0 k'); [reflexivity | exact IH].
Qed.

Section PortfolioValueFacts.
Context {rt : Runtime}.
Variable self : VaRCalculator.t.

Lemma historical_zero_value (returns : list Q) (c v : Q) :
  v == 0 ->
  calculate_historical_var self returns c (Some v) =
  calculate_historical_var self returns c None.
Proof.
  intros Hv. unfold calculate_historical_var.
  rewrite (py_or_zero v _ Hv). reflexivity.
Qed.

Lemma parametric_zero_value (returns : list Q) (c v : Q) (distribution : string) :
  v == 0 ->
  calculate_parametric_var self returns c distribution (Some v) =
  calculate_parametric_var self returns c distribution None.
Proof.
  intros Hv. unfold calculate_parametric_var.
  rewrite (py_or_zero v _ Hv). reflexivity.
Qed.

Lemma monte_carlo_zero_value (returns : list Q) (c v : Q) (simulations : Z) :
  v == 0 ->
  calculate_monte_carlo_var self returns c simulations (Some v) =
  calculate_monte_carlo_var self returns c simulations None.
Proof.
  intros Hv. unfold calculate_monte_carlo_var.
  rewrite (py_or_zero v _ Hv). reflexivity.
Qed.

Lemma hybrid_zero_value (returns : list Q) (c v : Q)
    (weights : option (list (string * Q))) :
  v == 0 ->
  calculate_hybrid_var self returns c weights (Some v) =
  calculate_hybrid_var self returns c weights None.
Proof.
  intros Hv. unfold calculate_hybrid_var.
  rewrite (historical_zero_value returns c v Hv),
          (parametric_zero_value returns c v "normal" Hv),
          (monte_carlo_zero_value returns c v 5000 Hv),
          (py_or_zero v _ Hv).
  reflexivity.
Qed.

Lemma portfolio_zero_value (assets : list (string * list Q))
    (weights : list (string * Q)) (c v : Q) (method : string) :
  v == 0 ->
  calculate_portfolio_var self assets weights c method (Some v) =
  calculate_portfolio_var self assets weights c method None.
Proof.
  intros Hv. unfold calculate_portfolio_var.
  rewrite (py_or_zero v _ Hv). reflexivity.
Qed.

Lemma base_var_zero_value (method : string) (returns : list Q) (c v : Q) :
  v == 0 -> base_var self method returns c v = base_var_default self method returns c.
Proof.
  intros Hv. unfold base_var, base_var_default.
  destruct (String.eqb method "historical").
  - apply historical_zero_value. exact Hv.
  - apply parametric_zero_value. exact Hv.
Qed.

Lemma base_var_default_value (method : string) (returns : list Q) (c : Q)
    (r : VaRResult.t) :
  base_var_default self method returns c = Ok r ->
  VaRResult.portfolio_value r = VaRCalculator.portfolio_value self.
Proof.
  unfold base_var_default, calculate_historical_var, calculate_parametric_var.
  destruct (String.eqb method "historical"), returns as [| x xs];
    cbv beta iota delta [is_empty]; try discriminate.
  - destruct (np_percentile (x :: xs) ((1 - c) * 100)) as [q | e];
      cbv beta iota delta [bind]; [| discriminate].
    destruct (0 <? length (tail_of (x :: xs) q))%nat;
      intros H; injection H as <-; reflexivity.
  - cbv beta iota delta [bind String.eqb Ascii.eqb Bool.eqb].
    intros H. injection H as <-. reflexivity.
Qed.

(** The loop records, for every asset, the VaR of its own estimator run
    at [portfolio_val * weights[asset]], and appends its series. *)
Lemma individual_loop_spec (weights : list (string * Q)) (c : Q)
    (method : string) (V : Q) (items : list (string * list Q)) :
  forall acc mat iv mat',
    individual_loop self items weights c method V acc mat = Ok (iv, mat') ->
    mat' = mat ++ map snd items /\
    (NoDup (map fst items) ->
     (forall a, ~ In a (map fst items) -> getitem iv a = getitem acc a) /\
     (forall a rs, In (a, rs) items ->
        exists w vr,
          getitem weights a = Ok w /\
          base_var self method rs c (V * w) = Ok vr /\
          getitem iv a = Ok (VaRResult.var_value vr))).
Proof.
  induction items as [| [a0 rs0] items IH]; intros acc mat iv mat' Hloop.
  - simpl in Hloop. injection Hloop as <- <-. rewrite app_nil_r.
    split; [reflexivity |]. intros _. split; [reflexivity |].
    intros a rs [].
  - simpl in Hloop.
    destruct (getitem weights a0) as [w0 | e] eqn:Hw0; simpl in Hloop;
      [| discriminate].
    destruct (base_var self method rs0 c (V * w0)) as [vr0 | e] eqn:Hvr0;
      simpl in Hloop; [| discriminate].
    destruct (IH _ _ _ _ Hloop) as [Hmat Hrest].
    split.
    + rewrite Hmat, <- app_assoc. reflexivity.
    + intros Hnd. simpl in Hnd. apply NoDup_cons_iff in Hnd as [Hnotin Hnd].
      destruct (Hrest Hnd) as [Hout Hin]. split.
      * intros a Ha. simpl in Ha.
        rewrite Hout by tauto. apply getitem_setitem_other. tauto.
      * intros a rs [Heq | Hia].
        -- injection Heq as <- <-. exists w0, vr0. repeat split; auto.
           rewrite (Hout a0 Hnotin). apply getitem_setitem_same.
        -- apply Hin. exact Hia.
Qed.
End PortfolioValueFacts.

(** C10.  A portfolio value of 0 is falsy, so [portfolio_value or
    self.portfolio_value] takes the calculator's default (1,000,000 for a
    calculator built without arguments): every estimator and the
    aggregator return with 0 exactly what they return with the argument
    omitted.  In the aggregator an asset of weight 0 is passed
    [portfolio_val * 0], so its individual VaR is the one its estimator
    computes at the calculator's default value. *)
Theorem zero_portfolio_value_is_default {rt : Runtime} (self : VaRCalculator.t)
    (returns : list Q) (c v : Q) (distribution : string) (simulations : Z)
    (hybrid_weights : option (list (string * Q)))
    (assets : list (string * list Q)) (weights : list (string * Q))
    (method : string) :
  v == 0 ->
  py_or (Some v) (VaRCalculator.portfolio_value self) =
    VaRCalculator.portfolio_value self /\
  VaRCalculator.portfolio_value VaRCalculator.default = 1000000 /\
  calculate_historical_var self returns c (Some v) =
    calculate_historical_var self returns c None /\
  calculate_parametric_var self returns c distribution (Some v) =
    calculate_parametric_var self returns c distribution None /\
  calculate_monte_carlo_var self returns c simulations (Some v) =
    calculate_monte_carlo_var self returns c simulations None /\
  calculate_hybrid_var self returns c hybrid_weights (Some v) =
    calculate_hybrid_var self returns c hybrid_weights None /\
  calculate_portfolio_var self assets weights c method (Some v) =
    calculate_portfolio_var self assets weights c method None /\
  (forall pv asset series w r,
     NoDup (map fst assets) ->
     calculate_portfolio_var self assets weights c method pv = Ok r ->
     In (asset, series) assets -> getitem weights asset = Ok w -> w == 0 ->
     exists vr,
       (if String.eqb method "historical"
        then calculate_historical_var self series c None
        else calculate_parametric_var self series c "normal" None) = Ok vr /\
       VaRResult.portfolio_value vr = VaRCalculator.portfolio_value self /\
       getitem (PortfolioVaRResult.individual_vars r) asset =
         Ok (VaRResult.var_value vr)).
Proof.
  intros Hv.
  split; [apply (py_or_zero v _ Hv) |].
  split; [reflexivity |].
  split; [apply historical_zero_value, Hv |].
  split; [apply parametric_zero_value, Hv |].
  split; [apply monte_carlo_zero_value, Hv |].
  split; [apply hybrid_zero_value, Hv |].
  split; [apply portfolio_zero_value, Hv |].
  intros pv asset series w r Hnd Hr Hin Hw Hw0.
  unfold calculate_portfolio_var in Hr.
  destruct (is_empty assets); [discriminate |].
  set (V := py_or pv (VaRCalculator.portfolio_value self)) in Hr.
  destruct (individual_loop self assets weights c method V [] [])
    as [[iv mat] | e] eqn:Hloop; cbv beta iota delta [bind] in Hr; [| discriminate].
  destruct (np_array2 mat) as [arr | e]; [| discriminate].
  destruct (portfolio_returns_loop _ _ _) as [prs | e]; [| discriminate].
  destruct (base_var self method prs c V) as [pvr | e]; [| discriminate].
  injection Hr as <-. cbv beta iota delta [PortfolioVaRResult.individual_vars].
  destruct (individual_loop_spec self weights c method V assets _ _ _ _ Hloop)
    as [_ Hspec].
  destruct (Hspec Hnd) as [_ Hitems].
  destruct (Hitems asset series Hin) as [w' [vr [Hw' [Hvr Hget]]]].
  rewrite Hw in Hw'. injection Hw' as <-.
  assert (Hz : V * w == 0) by (rewrite Hw0; ring).
  rewrite (base_var_zero_value self method series c (V * w) Hz) in Hvr.
  exists vr. split; [exact Hvr |]. split; [| exact Hget].
  apply (base_var_default_value self method series c vr Hvr).
Qed.

Lemma zero_portfolio_value_is_default_witness :
  @calculate_historical_var toy_runtime VaRCalculator.default
    sample_returns 0.95 (Some (0 # 5)) =
  @calculate_historical_var toy_runtime VaRCalculator.default
    sample_returns 0.95 None /\
  exists r vr,
    @calculate_portfolio_var toy_runtime VaRCalculator.default
      [ ("A", [0.01; -0.02; 0.03]); ("B", [0.02; 0.01; -0.01]) ]%string
      [ ("A", 0); ("B", 1) ]%string 0.95 "historical" None = Ok r /\
    @calculate_historical_var toy_runtime VaRCalculator.default
      [0.01; -0.02; 0.03] 0.95 None = Ok vr /\
    VaRResult.portfolio_value vr = 1000000 /\
    getitem (PortfolioVaRResult.individual_vars r) "A" = Ok (VaRResult.var_value vr).
Proof.
  destruct (@zero_portfolio_value_is_default toy_runtime VaRCalculator.default
              sample_returns 0.95 (0 # 5) "normal" 100 None
              [ ("A", [0.01; -0.02; 0.03]); ("B", [0.02; 0.01; -0.01]) ]%string
              [ ("A", 0); ("B", 1) ]%string "historical" eq_refl)
    as [_ [_ [Hh [_ [_ [_ [_ Hw]]]]]]].
  split; [exact Hh |].
  assert (Hr : exists r,
             @calculate_portfolio_var toy_runtime VaRCalculator.default
               [ ("A", [0.01; -0.02; 0.03]); ("B", [0.02; 0.01; -0.01]) ]%string
               [ ("A", 0); ("B", 1) ]%string 0.95 "historical" None = Ok r)
    by (eexists; vm_compute; reflexivity).
  destruct Hr as [r Hr].
  destruct (Hw None "A"%string [0.01; -0.02; 0.03] 0 r) as [vr [Hvr [Hpv Hget]]].
  - repeat constructor; simpl; intuition discriminate.
  - exact Hr.
  - left. reflexivity.
  - reflexivity.
  - reflexivity.
  - exists r, vr. repeat split; assumption.
Defined.

(** ** Series of differing length *)

Lemma np_array2_lengths (rows arr : list (list Q)) :
  np_array2 rows = Ok arr ->
  forall r1 r2, In r1 rows -> In r2 rows -> length r1 = length r2.
Proof.
  destruct rows as [| r0 rs]; [intros _ r1 r2 [] |].
  unfold np_array2.
  destruct (forallb (fun r' => (length r' =? length r0)%nat) rs) eqn:E;
    [| discriminate].
  intros _ r1 r2 H1 H2. rewrite forallb_forall in E.
  assert (Hall : forall r, In r (r0 :: rs) -> length r = length r0).
  { intros r [<- | Hr]; [reflexivity | apply Nat.eqb_eq, E, Hr]. }
  rewrite (Hall r1 H1), (Hall r2 H2). reflexivity.
Qed.

(** Whenever two assets have series of different lengths the aggregator
    returns no result: the matrix is built from the untruncated series. *)
Lemma ragged_portfolio_never_ok {rt : Runtime} (self : VaRCalculator.t)
    (assets : list (string * list Q)) (weights : list (string * Q))
    (c : Q) (method : string) (pv : option Q)
    (a1 a2 : string) (s1 s2 : list Q) :
  In (a1, s1) assets -> In (a2, s2) assets -> length s1 <> length s2 ->
  forall r, calculate_portfolio_var self assets weights c method pv <> Ok r.
Proof.
  intros H1 H2 Hlen r Hr. unfold calculate_portfolio_var in Hr.
  destruct (is_empty assets); [discriminate |].
  destruct (individual_loop self assets weights c method _ [] [])
    as [[iv mat] | e] eqn:Hloop; cbv beta iota delta [bind] in Hr; [| discriminate].
  destruct (np_array2 mat) as [arr | e] eqn:Harr; [| discriminate].
  destruct (individual_loop_spec self weights c method _ assets _ _ _ _ Hloop)
    as [Hmat _].
  simpl in Hmat. subst mat.
  apply Hlen. apply (np_array2_lengths _ _ Harr).
  - apply (in_map snd _ _ H1).
  - apply (in_map snd _ _ H2).
Qed.

(** C7: the code does not do this.  With series of lengths 3 and 2 the
    aggregator raises when numpy builds the return matrix, before the
    shortest length is computed: nothing is truncated and no correlation
    matrix is returned, for either base method. *)
Theorem ragged_portfolio_raises {rt : Runtime} (self : VaRCalculator.t) :
  calculate_portfolio_var self
    [ ("A", [0.01; -0.02; 0.03]); ("B", [0.02; 0.01]) ]%string
    [ ("A", 0.5); ("B", 0.5) ]%string 0.95 "historical" None
    = Raise ValueError_inhomogeneous /\
  calculate_portfolio_var self
    [ ("A", [0.01; -0.02; 0.03]); ("B", [0.02; 0.01]) ]%string
    [ ("A", 0.5); ("B", 0.5) ]%string 0.95 "parametric" None
    = Raise ValueError_inhomogeneous.
Proof. split; vm_compute; reflexivity. Qed.


(** * Further properties of the calculator *)

(** ** What a returned result looks like *)

Section ResultShape.
Context {rt : Runtime}.
Variable self : VaRCalculator.t.

(** A historical result comes from a non-empty series and a percentile in
    range; [m] is the return behind the CVaR: the tail mean, or the
    quantile itself on the fallback branch. *)
Lemma calculate_historical_var_inv (returns : list Q) (c : Q) (pv : option Q)
    (r : VaRResult.t) :
  calculate_historical_var self returns c pv = Ok r ->
  returns <> [] /\
  exists q,
    np_percentile returns ((1 - c) * 100) = Ok q /\
    let V := py_or pv (VaRCalculator.portfolio_value self) in
    let m := if (0 <? length (tail_of returns q))%nat
             then np_mean (tail_of returns q) else q in
    VaRResult.var_value r = Qabs (q * V) /\
    VaRResult.var_percentage r = Qabs q * 100 /\
    VaRResult.cvar_value r = Qabs (m * V) /\
    VaRResult.cvar_percentage r = Qabs m * 100 /\
    VaRResult.expected_shortfall r = VaRResult.cvar_value r /\
    VaRResult.portfolio_value r = V /\
    VaRResult.data_points r = length returns /\
    VaRResult.confidence_level r = c.
Proof.
  unfold calculate_historical_var.
  destruct returns as [| x xs]; cbv beta iota delta [is_empty]; [discriminate |].
  destruct (np_percentile (x :: xs) ((1 - c) * 100)) as [q | e];
    cbv beta iota delta [bind]; [| discriminate].
  intros H. split; [discriminate |]. exists q. split; [reflexivity |].
  destruct (0 <? length (tail_of (x :: xs) q))%nat;
    injection H as <-; repeat split.
Qed.

Lemma calculate_parametric_var_inv (returns : list Q) (c : Q)
    (distribution : string) (pv : option Q) (r : VaRResult.t) :
  calculate_parametric_var self returns c distribution pv = Ok r ->
  returns <> [] /\
  (distribution = "normal" \/ distribution = "t")%string /\
  let V := py_or pv (VaRCalculator.portfolio_value self) in
  let q := parametric_quantile returns c distribution in
  let m := parametric_tail returns c distribution in
  VaRResult.var_value r = Qabs (q * V) /\
  VaRResult.var_percentage r = Qabs q * 100 /\
  VaRResult.cvar_value r = Qabs (m * V) /\
  VaRResult.cvar_percentage r = Qabs m * 100 /\
  VaRResult.expected_shortfall r = VaRResult.cvar_value r /\
  VaRResult.portfolio_value r = V /\
  VaRResult.data_points r = length returns /\
  VaRResult.confidence_level r = c.
Proof.
  unfold calculate_parametric_var, parametric_tail, parametric_quantile.
  destruct returns as [| x xs]; cbv beta iota delta [is_empty]; [discriminate |].
  destruct (String.eqb distribution "normal") eqn:En.
  - cbv beta iota delta [bind]. intros H. injection H as <-.
    apply String.eqb_eq in En. repeat split; auto; discriminate.
  - destruct (String.eqb distribution "t") eqn:Et;
      cbv beta iota delta [bind]; [| discriminate].
    intros H. injection H as <-.
    apply String.eqb_eq in Et. repeat split; auto; discriminate.
Qed.

Lemma calculate_monte_carlo_var_inv (returns : list Q) (c : Q)
    (simulations : Z) (pv : option Q) (r : VaRResult.t) :
  calculate_monte_carlo_var self returns c simulations pv = Ok r ->
  returns <> [] /\ (0 <= simulations)%Z /\
  exists q,
    np_percentile (simulated returns simulations) ((1 - c) * 100) = Ok q /\
    let V := py_or pv (VaRCalculator.portfolio_value self) in
    let m := np_mean (tail_of (simulated returns simulations) q) in
    VaRResult.var_value r = Qabs (q * V) /\
    VaRResult.var_percentage r = Qabs q * 100 /\
    VaRResult.cvar_value r = Qabs (m * V) /\
    VaRResult.cvar_percentage r = Qabs m * 100 /\
    VaRResult.expected_shortfall r = VaRResult.cvar_value r /\
    VaRResult.portfolio_value r = V /\
    VaRResult.data_points r = length returns /\
    VaRResult.confidence_level r = c.
Proof.
  unfold calculate_monte_carlo_var.
  destruct returns as [| x xs]; cbv beta iota delta [is_empty]; [discriminate |].
  destruct (simulations <? 0)%Z eqn:Es; cbv beta iota delta [bind]; [discriminate |].
  fold (simulated (x :: xs) simulations).
  destruct (np_percentile (simulated (x :: xs) simulations) ((1 - c) * 100))
    as [q | e]; [| discriminate].
  intros H. injection H as <-.
  apply Z.ltb_ge in Es.
  split; [discriminate |]. split; [exact Es |].
  exists q. repeat split.
Qed.

Lemma well_formed_intro (r : VaRResult.t) (q m V : Q) :
  VaRResult.var_value r = Qabs (q * V) ->
  VaRResult.var_percentage r = Qabs q * 100 ->
  VaRResult.cvar_value r = Qabs (m * V) ->
  VaRResult.cvar_percentage r = Qabs m * 100 ->
  VaRResult.expected_shortfall r = VaRResult.cvar_value r ->
  well_formed r.
Proof.
  intros Hv Hvp Hc Hcp Hes. unfold well_formed.
  rewrite Hes, Hv, Hvp, Hc, Hcp.
  pose proof (Qabs_nonneg q) as Hq. pose proof (Qabs_nonneg m) as Hm.
  split; [apply Qabs_nonneg |]. split; [lra |].
  split; [apply Qabs_nonneg |]. split; [lra | reflexivity].
Qed.
End ResultShape.

(** X1.  What the historical, parametric or Monte Carlo estimator
    returns is well formed: VaR and CVaR, as values and as percentages,
    are never negative (each is an absolute value), and
    [expected_shortfall] is [cvar_value].  For the parametric estimator
    this is said where its quantile is finite: a confidence level from
    2^-53 to below 1 and, with the Student-t selector, at least two
    returns (one return leaves 0 degrees of freedom, for which [t.ppf] is
    [nan], and so are VaR and CVaR); for the Monte Carlo estimator, with
    at least one simulation. *)
Theorem single_method_results_well_formed {rt : Runtime} (self : VaRCalculator.t)
    (returns : list Q) (c : Q) (distribution : string) (simulations : Z)
    (pv : option Q) :
  (forall r, calculate_historical_var self returns c pv = Ok r -> well_formed r) /\
  (ppf_finite c ->
   (distribution = "t"%string -> (2 <= length returns)%nat) ->
   forall r, calculate_parametric_var self returns c distribution pv = Ok r ->
             well_formed r) /\
  ((0 < simulations)%Z ->
   forall r, calculate_monte_carlo_var self returns c simulations pv = Ok r ->
             well_formed r).
Proof.
  split; [| split].
  - intros r Hr.
    destruct (calculate_historical_var_inv self _ _ _ _ Hr)
      as [_ [q [_ [Hv [Hvp [Hc [Hcp [Hes _]]]]]]]].
    eapply well_formed_intro; eassumption.
  - intros _ _ r Hr.
    destruct (calculate_parametric_var_inv self _ _ _ _ _ Hr)
      as [_ [_ [Hv [Hvp [Hc [Hcp [Hes _]]]]]]].
    eapply well_formed_intro; eassumption.
  - intros _ r Hr.
    destruct (calculate_monte_carlo_var_inv self _ _ _ _ _ Hr)
      as [_ [_ [q [_ [Hv [Hvp [Hc [Hcp [Hes _]]]]]]]]].
    eapply well_formed_intro; eassumption.
Qed.

Lemma single_method_results_well_formed_witness :
  exists r1 r2 r3,
    @calculate_historical_var toy_runtime VaRCalculator.default
      sample_returns 0.95 (Some (-500000)) = Ok r1 /\ well_formed r1 /\
    @calculate_parametric_var toy_runtime VaRCalculator.default
      sample_returns 0.95 "t" (Some (-500000)) = Ok r2 /\ well_formed r2 /\
    @calculate_monte_carlo_var toy_runtime VaRCalculator.default
      sample_returns 0.95 20 (Some (-500000)) = Ok r3 /\ well_formed r3.
Proof.
  destruct (@single_method_results_well_formed toy_runtime VaRCalculator.default
              sample_returns 0.95 "t" 20 (Some (-500000))) as [H1 [H2 H3]].
  assert (Hc : ppf_finite 0.95) by (split; [discriminate | reflexivity]).
  assert (Hn : ("t" = "t")%string -> (2 <= length sample_returns)%nat)
    by (intros _; simpl; lia).
  destruct (np_percentile (@simulated toy_runtime sample_returns 20)
              ((1 - 0.95) * 100)) as [q | e] eqn:Hq;
    [| vm_compute in Hq; discriminate].
  destruct (@calculate_monte_carlo_var_ok toy_runtime VaRCalculator.default
              sample_returns 0.95 20 (Some (-500000)) q)
    as [r3 [Hr3 _]]; [discriminate | discriminate | exact Hq |].
  eexists. eexists. exists r3.
  split; [vm_compute; reflexivity |]. split; [apply H1; vm_compute; reflexivity |].
  split; [vm_compute; reflexivity |].
  split; [apply (H2 Hc Hn); vm_compute; reflexivity |].
  split; [exact Hr3 | apply (H3 eq_refl); exact Hr3].
Defined.

(** ** A portfolio value that is given *)

Lemma py_or_nonzero (v d : Q) : ~ v == 0 -> py_or (Some v) d = v.
Proof.
  intros Hv. unfold py_or.
  destruct (Qeq_bool v 0) eqn:E; [| reflexivity].
  apply Qeq_bool_iff in E. contradiction.
Qed.

(** X2.  A non-zero [portfolio_value] argument replaces the calculator's
    default altogether: the four estimators return the same for any two
    calculators, and a returned result records the argument as its
    portfolio value. *)
Theorem given_portfolio_value_overrides_default {rt : Runtime}
    (self other : VaRCalculator.t) (returns : list Q) (c v : Q)
    (distribution : string) (simulations : Z)
    (weights : option (list (string * Q))) :
  ~ v == 0 ->
  calculate_historical_var self returns c (Some v) =
    calculate_historical_var other returns c (Some v) /\
  calculate_parametric_var self returns c distribution (Some v) =
    calculate_parametric_var other returns c distribution (Some v) /\
  calculate_monte_carlo_var self returns c simulations (Some v) =
    calculate_monte_carlo_var other returns c simulations (Some v) /\
  calculate_hybrid_var self returns c weights (Some v) =
    calculate_hybrid_var other returns c weights (Some v) /\
  (forall r, calculate_historical_var self returns c (Some v) = Ok r ->
             VaRResult.portfolio_value r = v) /\
  (forall r, calculate_parametric_var self returns c distribution (Some v) = Ok r ->
             VaRResult.portfolio_value r = v) /\
  (forall r, calculate_monte_carlo_var self returns c simulations (Some v) = Ok r ->
             VaRResult.portfolio_value r = v).
Proof.
  intros Hv.
  assert (Hh : forall s, calculate_historical_var s returns c (Some v) =
                         calculate_historical_var self returns c (Some v)).
  { intros s. unfold calculate_historical_var.
    rewrite !(py_or_nonzero v _ Hv). reflexivity. }
  assert (Hp : forall s d, calculate_parametric_var s returns c d (Some v) =
                           calculate_parametric_var self returns c d (Some v)).
  { intros s d. unfold calculate_parametric_var.
    rewrite !(py_or_nonzero v _ Hv). reflexivity. }
  assert (Hm : forall s n, calculate_monte_carlo_var s returns c n (Some v) =
                           calculate_monte_carlo_var self returns c n (Some v)).
  { intros s n. unfold calculate_monte_carlo_var.
    rewrite !(py_or_nonzero v _ Hv). reflexivity. }
  split; [symmetry; apply Hh |]. split; [symmetry; apply Hp |].
  split; [symmetry; apply Hm |].
  split.
  { unfold calculate_hybrid_var.
    rewrite (Hh other), (Hp other), (Hm other), !(py_or_nonzero v _ Hv).
    reflexivity. }
  split; [| split]; intros r Hr.
  - destruct (calculate_historical_var_inv self _ _ _ _ Hr)
      as [_ [q [_ [_ [_ [_ [_ [_ [HV _]]]]]]]]].
    rewrite HV. apply py_or_nonzero, Hv.
  - destruct (calculate_parametric_var_inv self _ _ _ _ _ Hr)
      as [_ [_ [_ [_ [_ [_ [_ [HV _]]]]]]]].
    rewrite HV. apply py_or_nonzero, Hv.
  - destruct (calculate_monte_carlo_var_inv self _ _ _ _ _ Hr)
      as [_ [_ [q [_ [_ [_ [_ [_ [_ [HV _]]]]]]]]]].
    rewrite HV. apply py_or_nonzero, Hv.
Qed.

Lemma given_portfolio_value_overrides_default_witness :
  @calculate_hybrid_var toy_runtime VaRCalculator.default
    sample_returns 0.95 None (Some 250000) =
  @calculate_hybrid_var toy_runtime (VaRCalculator.mk 7)
    sample_returns 0.95 None (Some 250000) /\
  exists r,
    @calculate_historical_var toy_runtime VaRCalculator.default
      sample_returns 0.95 (Some 250000) = Ok r /\
    VaRResult.portfolio_value r = 250000.
Proof.
  destruct (@given_portfolio_value_overrides_default toy_runtime
              VaRCalculator.default (VaRCalculator.mk 7) sample_returns 0.95
              250000 "normal" 20 None)
    as [_ [_ [_ [Hy [Hh _]]]]].
  - discriminate.
  - split; [exact Hy |].
    eexists. split; [vm_compute; reflexivity |].
    apply Hh. vm_compute. reflexivity.
Defined.

(** ** The quantile between the extremes *)

Lemma np_max_from_spec (a : list Q) (m : Q) :
  (m <= np_max_from m a /\ forall x, In x a -> x <= np_max_from m a) /\
  (np_max_from m a = m \/ In (np_max_from m a) a).
Proof.
  revert m. induction a as [| y a IH]; intros m; simpl.
  - split; [split; [apply Qle_refl | tauto] | left; reflexivity].
  - destruct (IH (if Qle_bool y m then m else y)) as [[Hle Hall] Hin].
    destruct (Qle_bool y m) eqn:E.
    + apply Qle_bool_iff in E. split; [split |].
      * exact Hle.
      * intros x [<- | Hx]; [lra | auto].
      * destruct Hin as [-> | Hin]; auto.
    + assert (Hmy : m <= y).
      { destruct (Qlt_le_dec m y) as [H | H]; [lra |].
        apply Qle_bool_iff in H. congruence. }
      split; [split |].
      * lra.
      * intros x [<- | Hx]; auto.
      * destruct Hin as [-> | Hin]; auto.
Qed.

Lemma np_max_ge (a : list Q) (x : Q) : In x a -> x <= np_max a.
Proof.
  destruct a as [| y a]; simpl; [tauto |].
  destruct (np_max_from_spec a y) as [[Hle Hall] _].
  intros [<- | Hx]; auto.
Qed.

Lemma np_max_In (a : list Q) : a <> [] -> In (np_max a) a.
Proof.
  destruct a as [| y a]; [congruence |]. intros _. simpl.
  destruct (np_max_from_spec a y) as [_ [-> | Hin]]; auto.
Qed.

(** The percentile is at most some element of the array. *)
Lemma np_percentile_below_element (a : list Q) (p q : Q) :
  a <> [] -> 0 <= p -> p <= 100 -> np_percentile a p = Ok q ->
  exists x, In x a /\ q <= x.
Proof.
  intros Hne H0 H1 Hq.
  rewrite (np_percentile_interpolate a p Hne H0 H1) in Hq. injection Hq as <-.
  destruct (virtual_index_bounds (length a) p H0 H1) as [Hv0 Hv1].
  assert (Hlen : (0 < length a)%nat) by (destruct a; simpl; [congruence | lia]).
  assert (Hv1' : virtual_index (length a) p <= nat_Q (length (np_sort a) - 1))
    by (rewrite np_sort_length; exact Hv1).
  pose proof (interpolate_bounds (np_sort a) _ (np_sort_sorted a)
                (np_sort_nonempty a Hne) Hv0 Hv1') as [_ Hup].
  eexists. split; [| exact Hup].
  apply np_sort_nth_In. rewrite np_sort_length. lia.
Qed.

Lemma np_percentile_between (a : list Q) (p q : Q) :
  a <> [] -> 0 <= p -> p <= 100 -> np_percentile a p = Ok q ->
  np_min a <= q /\ q <= np_max a.
Proof.
  intros Hne H0 H1 Hq.
  destruct (np_percentile_above_element a p q Hne H0 H1 Hq) as [x [Hx Hxq]].
  destruct (np_percentile_below_element a p q Hne H0 H1 Hq) as [y [Hy Hqy]].
  pose proof (np_min_le a x Hx). pose proof (np_max_ge a y Hy).
  split; lra.
Qed.

(** An absolute value inside an interval is bounded by an end point. *)
Lemma Qabs_between (lo hi x V : Q) :
  lo <= x -> x <= hi ->
  Qabs (x * V) <= Qabs (lo * V) \/ Qabs (x * V) <= Qabs (hi * V).
Proof.
  intros Hlo Hhi. rewrite !Qabs_Qmult.
  destruct (Qlt_le_dec x 0) as [Hneg | Hpos].
  - left. apply Qmult_le_compat_r; [| apply Qabs_nonneg].
    rewrite (Qabs_neg x), (Qabs_neg lo) by lra. lra.
  - right. apply Qmult_le_compat_r; [| apply Qabs_nonneg].
    rewrite (Qabs_pos x), (Qabs_pos hi) by lra. lra.
Qed.

(** X3.  For a non-empty series and a confidence level in [0,1] the
    historical estimator returns a result whose quantile lies between the
    smallest and the largest return (numpy's interpolation stays between
    its two neighbours, in binary64 as well); its [var_value] does not
    exceed the larger of [|min * V|] and [|max * V|]. *)
Theorem historical_var_within_extremes {rt : Runtime} (self : VaRCalculator.t)
    (returns : list Q) (c : Q) (pv : option Q) :
  returns <> [] -> 0 <= c -> c <= 1 ->
  let V := py_or pv (VaRCalculator.portfolio_value self) in
  exists q r,
    np_percentile returns ((1 - c) * 100) = Ok q /\
    np_min returns <= q /\ q <= np_max returns /\
    calculate_historical_var self returns c pv = Ok r /\
    VaRResult.var_value r = Qabs (q * V) /\
    (VaRResult.var_value r <= Qabs (np_min returns * V) \/
     VaRResult.var_value r <= Qabs (np_max returns * V)).
Proof.
  intros Hne Hc0 Hc1 V.
  assert (Hp0 : 0 <= (1 - c) * 100) by lra.
  assert (Hp1 : (1 - c) * 100 <= 100) by lra.
  pose proof (np_percentile_interpolate returns _ Hne Hp0 Hp1) as Hq.
  set (q := interpolate (np_sort returns) (virtual_index (length returns) ((1 - c) * 100))) in Hq.
  destruct (np_percentile_between returns _ q Hne Hp0 Hp1 Hq) as [Hlo Hhi].
  destruct (calculate_historical_var_ok self returns c pv q Hne Hq)
    as [r [Hr [Hvar _]]].
  exists q, r. fold V in Hvar.
  split; [exact Hq |]. split; [exact Hlo |]. split; [exact Hhi |].
  split; [exact Hr |]. split; [exact Hvar |].
  rewrite Hvar. apply Qabs_between; assumption.
Qed.

Lemma historical_var_within_extremes_witness :
  exists q r,
    np_percentile sample_returns ((1 - 0.95) * 100) = Ok q /\
    np_min sample_returns <= q /\ q <= np_max sample_returns /\
    @calculate_historical_var toy_runtime VaRCalculator.default
      sample_returns 0.95 None = Ok r /\
    VaRResult.var_value r = Qabs (q * 1000000) /\
    (VaRResult.var_value r <= Qabs (np_min sample_returns * 1000000) \/
     VaRResult.var_value r <= Qabs (np_max sample_returns * 1000000)).
Proof.
  apply (@historical_var_within_extremes toy_runtime VaRCalculator.default
           sample_returns 0.95 None).
  - discriminate.
  - discriminate.
  - discriminate.
Defined.

(** X4.  The calculator does not check the confidence level; numpy does,
    through the percentile [(1 - c) * 100].  On a non-empty series the
    historical estimator returns a result for every confidence level in
    [0,1], and raises the percentile-range error for a level above 1 and
    for a level of -2^-52 or below; so do the Monte Carlo estimator (for
    a non-negative simulation count) and, through its historical step,
    the hybrid one.  (Numpy sees the rounded product, which is still 100
    for the negative levels nearest to 0: those are left out here.) *)
Theorem confidence_level_range {rt : Runtime} (self : VaRCalculator.t)
    (returns : list Q) (c : Q) (pv : option Q) (simulations : Z)
    (weights : option (list (string * Q))) :
  returns <> [] ->
  (0 <= c -> c <= 1 -> exists r, calculate_historical_var self returns c pv = Ok r) /\
  (c <= - (1 # 2 ^ 52) \/ 1 < c ->
   calculate_historical_var self returns c pv = Raise ValueError_percentile_range /\
   calculate_hybrid_var self returns c weights pv = Raise ValueError_percentile_range /\
   ((0 <= simulations)%Z ->
    calculate_monte_carlo_var self returns c simulations pv =
      Raise ValueError_percentile_range)).
Proof.
  intros Hne. split.
  - intros Hc0 Hc1.
    assert (Hp0 : 0 <= (1 - c) * 100) by lra.
    assert (Hp1 : (1 - c) * 100 <= 100) by lra.
    destruct (calculate_historical_var_ok self returns c pv _ Hne
                (np_percentile_interpolate returns _ Hne Hp0 Hp1)) as [r [Hr _]].
    exists r. exact Hr.
  - intros Hout.
    assert (Hout' : c < 0 \/ 1 < c).
    { destruct Hout as [H | H]; [left | right; exact H].
      assert (Hneg : - (1 # 2 ^ 52) < 0) by reflexivity. lra. }
    assert (Hrange : forall a, np_percentile a ((1 - c) * 100) =
                               Raise ValueError_percentile_range).
    { intros a. unfold np_percentile.
      destruct (Qle_bool 0 ((1 - c) * 100)) eqn:E0;
        destruct (Qle_bool ((1 - c) * 100) 100) eqn:E1; try reflexivity.
      apply Qle_bool_iff in E0. apply Qle_bool_iff in E1. lra. }
    assert (Hh : calculate_historical_var self returns c pv =
                 Raise ValueError_percentile_range).
    { unfold calculate_historical_var.
      destruct returns as [| x xs]; [congruence |].
      cbv beta iota delta [is_empty]. rewrite Hrange. reflexivity. }
    split; [exact Hh |]. split.
    + unfold calculate_hybrid_var.
      destruct returns as [| x xs]; [congruence |].
      cbv beta iota delta [is_empty]. rewrite Hh. reflexivity.
    + intros Hsim. unfold calculate_monte_carlo_var.
      destruct returns as [| x xs]; [congruence |].
      cbv beta iota delta [is_empty].
      assert (Hneg : (simulations <? 0)%Z = false) by (apply Z.ltb_ge; exact Hsim).
      rewrite Hneg. cbv beta iota delta [bind]. rewrite Hrange. reflexivity.
Qed.

Lemma confidence_level_range_witness :
  (exists r, @calculate_historical_var toy_runtime VaRCalculator.default
               sample_returns 1 None = Ok r) /\
  @calculate_historical_var toy_runtime VaRCalculator.default
    sample_returns 1.5 None = Raise ValueError_percentile_range /\
  @calculate_hybrid_var toy_runtime VaRCalculator.default
    sample_returns 1.5 None None = Raise ValueError_percentile_range /\
  @calculate_monte_carlo_var toy_runtime VaRCalculator.default
    sample_returns (-0.05) 100 None = Raise ValueError_percentile_range.
Proof.
  assert (Hne : sample_returns <> []) by discriminate.
  destruct (@confidence_level_range toy_runtime VaRCalculator.default
              sample_returns 1 None 100 None Hne) as [Hin _].
  destruct (@confidence_level_range toy_runtime VaRCalculator.default
              sample_returns 1.5 None 100 None Hne) as [_ Hout].
  destruct (@confidence_level_range toy_runtime VaRCalculator.default
              sample_returns (-0.05) None 100 None Hne) as [_ Hlow].
  split; [apply Hin; discriminate |].
  destruct Hout as [Hh [Hy _]]; [right; reflexivity |].
  split; [exact Hh |]. split; [exact Hy |].
  destruct Hlow as [_ [_ Hm]]; [left; discriminate |].
  apply Hm. discriminate.
Defined.

(** ** The extreme confidence levels *)

Lemma interpolate_first (arr : list Q) (h : Q) :
  h == 0 -> interpolate arr h == nth 0 arr 0.
Proof.
  intros Hh. unfold interpolate. rewrite lerp_linear.
  assert (Hfl : Qfloor h = 0%Z) by (rewrite Hh; reflexivity).
  rewrite Hfl. simpl Z.to_nat. change (inject_Z 0) with 0. rewrite Hh. ring.
Qed.

Lemma interpolate_last (arr : list Q) (h : Q) :
  h == nat_Q (length arr - 1) ->
  interpolate arr h == nth (length arr - 1) arr 0.
Proof.
  intros Hh. unfold interpolate. rewrite lerp_linear.
  assert (Hfl : Qfloor h = Z.of_nat (length arr - 1)).
  { rewrite Hh. unfold nat_Q. apply Qfloor_Z. }
  rewrite Hfl, Nat2Z.id.
  replace (Nat.min (length arr - 1 + 1) (length arr - 1)) with (length arr - 1)%nat
    by lia.
  ring.
Qed.

Lemma sorted_first_le (a : list Q) (x : Q) :
  In x a -> nth 0 (np_sort a) 0 <= x.
Proof.
  intros Hx.
  assert (Hs : In x (np_sort a)) by (eapply Permutation_in; [apply np_sort_perm | exact Hx]).
  destruct (In_nth _ _ 0 Hs) as [j [Hj Hnth]]. rewrite <- Hnth.
  apply sorted_nth_le; [apply np_sort_sorted | lia | exact Hj].
Qed.

Lemma sorted_last_ge (a : list Q) (x : Q) :
  In x a -> x <= nth (length (np_sort a) - 1) (np_sort a) 0.
Proof.
  intros Hx.
  assert (Hs : In x (np_sort a)) by (eapply Permutation_in; [apply np_sort_perm | exact Hx]).
  destruct (In_nth _ _ 0 Hs) as [j [Hj Hnth]]. rewrite <- Hnth.
  apply sorted_nth_le; [apply np_sort_sorted | lia | lia].
Qed.

Lemma percentile_0_is_min (a : list Q) (p : Q) :
  a <> [] -> p == 0 -> exists q, np_percentile a p = Ok q /\ q == np_min a.
Proof.
  intros Hne Hp.
  assert (H0 : 0 <= p) by lra. assert (H1 : p <= 100) by lra.
  pose proof (np_percentile_interpolate a p Hne H0 H1) as Hq.
  eexists. split; [exact Hq |].
  destruct (np_percentile_between a p _ Hne H0 H1 Hq) as [Hlo _].
  apply Qle_antisym; [| exact Hlo].
  rewrite interpolate_first.
  - apply sorted_first_le, np_min_In, Hne.
  - unfold virtual_index. rewrite Hp. field.
Qed.

Lemma percentile_100_is_max (a : list Q) (p : Q) :
  a <> [] -> p == 100 -> exists q, np_percentile a p = Ok q /\ q == np_max a.
Proof.
  intros Hne Hp.
  assert (H0 : 0 <= p) by lra. assert (H1 : p <= 100) by lra.
  pose proof (np_percentile_interpolate a p Hne H0 H1) as Hq.
  eexists. split; [exact Hq |].
  destruct (np_percentile_between a p _ Hne H0 H1 Hq) as [_ Hhi].
  apply Qle_antisym; [exact Hhi |].
  rewrite interpolate_last.
  - apply sorted_last_ge, np_max_In, Hne.
  - unfold virtual_index. rewrite np_sort_length, Hp. field.
Qed.

(** X5.  At confidence 1 the percentile is the 0th, and the historical
    VaR is the worst return of the series scaled, [|min * V|]; at
    confidence 0 the percentile is the 100th and the VaR is [|max * V|]. *)
Theorem historical_var_at_extreme_confidence {rt : Runtime}
    (self : VaRCalculator.t) (returns : list Q) (pv : option Q) :
  returns <> [] ->
  let V := py_or pv (VaRCalculator.portfolio_value self) in
  (exists r,
     calculate_historical_var self returns 1 pv = Ok r /\
     VaRResult.var_value r == Qabs (np_min returns * V) /\
     VaRResult.var_percentage r == Qabs (np_min returns) * 100) /\
  (exists r,
     calculate_historical_var self returns 0 pv = Ok r /\
     VaRResult.var_value r == Qabs (np_max returns * V) /\
     VaRResult.var_percentage r == Qabs (np_max returns) * 100).
Proof.
  intros Hne V. split.
  - destruct (percentile_0_is_min returns ((1 - 1) * 100) Hne) as [q [Hq Hmin]];
      [reflexivity |].
    destruct (calculate_historical_var_ok self returns 1 pv q Hne Hq)
      as [r [Hr [Hvar [Hpct _]]]].
    fold V in Hvar. exists r. split; [exact Hr |].
    rewrite Hvar, Hpct, Hmin. split; reflexivity.
  - destruct (percentile_100_is_max returns ((1 - 0) * 100) Hne) as [q [Hq Hmax]];
      [reflexivity |].
    destruct (calculate_historical_var_ok self returns 0 pv q Hne Hq)
      as [r [Hr [Hvar [Hpct _]]]].
    fold V in Hvar. exists r. split; [exact Hr |].
    rewrite Hvar, Hpct, Hmax. split; reflexivity.
Qed.

Lemma historical_var_at_extreme_confidence_witness :
  (exists r,
     @calculate_historical_var toy_runtime VaRCalculator.default
       sample_returns 1 None = Ok r /\
     VaRResult.var_value r == Qabs (np_min sample_returns * 1000000) /\
     VaRResult.var_percentage r == Qabs (np_min sample_returns) * 100) /\
  (exists r,
     @calculate_historical_var toy_runtime VaRCalculator.default
       sample_returns 0 None = Ok r /\
     VaRResult.var_value r == Qabs (np_max sample_returns * 1000000) /\
     VaRResult.var_percentage r == Qabs (np_max sample_returns) * 100).
Proof.
  apply (@historical_var_at_extreme_confidence toy_runtime VaRCalculator.default
           sample_returns None).
  discriminate.
Defined.

(** ** The parametric estimator *)

(** X6.  With the Student-t selector the CVaR is computed as 1.2 times
    the quantile, so it is never below the VaR, as a value and as a
    percentage, whatever the sign of the quantile (unlike the historical
    CVaR).  Said where the quantile is finite: at least two returns and a
    confidence level from 2^-53 to below 1. *)
Theorem student_t_cvar_not_below_var {rt : Runtime} (self : VaRCalculator.t)
    (returns : list Q) (c : Q) (pv : option Q) :
  (2 <= length returns)%nat -> ppf_finite c ->
  exists r,
    calculate_parametric_var self returns c "t" pv = Ok r /\
    VaRResult.var_value r <= VaRResult.cvar_value r /\
    VaRResult.var_percentage r <= VaRResult.cvar_percentage r /\
    VaRResult.expected_shortfall r = VaRResult.cvar_value r.
Proof.
  intros Hlen _.
  destruct (calculate_parametric_var self returns c "t" pv) as [r | e] eqn:Hr.
  2: { exfalso. revert Hr. unfold calculate_parametric_var.
       destruct returns as [| x xs]; [simpl in Hlen; lia |]. discriminate. }
  exists r. split; [reflexivity |].
  destruct (calculate_parametric_var_inv self _ _ _ _ _ Hr)
    as [_ [_ [Hv [Hvp [Hc [Hcp [Hes _]]]]]]].
  unfold parametric_tail in Hc, Hcp. simpl String.eqb in Hc, Hcp.
  set (q := parametric_quantile returns c "t") in *.
  set (V := py_or pv (VaRCalculator.portfolio_value self)) in *.
  assert (Hscale : forall x, Qabs (x * (12 # 10)) == (12 # 10) * Qabs x).
  { intros x. rewrite Qabs_Qmult. rewrite (Qabs_pos (12 # 10)) by discriminate. ring. }
  split; [| split; [| exact Hes]].
  - rewrite Hc, Hv.
    setoid_replace (q * (12 # 10) * V) with (q * V * (12 # 10)) by ring.
    rewrite Hscale. pose proof (Qabs_nonneg (q * V)). lra.
  - rewrite Hcp, Hvp, Hscale. pose proof (Qabs_nonneg q). lra.
Qed.

Lemma student_t_cvar_not_below_var_witness :
  exists r,
    @calculate_parametric_var toy_runtime VaRCalculator.default
      sample_returns 0.95 "t" None = Ok r /\
    VaRResult.var_value r <= VaRResult.cvar_value r /\
    VaRResult.var_percentage r <= VaRResult.cvar_percentage r /\
    VaRResult.expected_shortfall r = VaRResult.cvar_value r.
Proof.
  apply (@student_t_cvar_not_below_var toy_runtime VaRCalculator.default
           sample_returns 0.95 None).
  - simpl. lia.
  - split; [discriminate | reflexivity].
Defined.

(** ** The Monte Carlo and hybrid estimators *)

Section HybridFacts.
Context {rt : Runtime}.
Variable self : VaRCalculator.t.

Lemma monte_carlo_succeeds (returns : list Q) (c : Q) (simulations : Z)
    (pv : option Q) :
  returns <> [] -> 0 <= c -> c <= 1 -> (0 < simulations)%Z ->
  exists r, calculate_monte_carlo_var self returns c simulations pv = Ok r.
Proof.
  intros Hne Hc0 Hc1 Hsim.
  assert (Hp0 : 0 <= (1 - c) * 100) by lra.
  assert (Hp1 : (1 - c) * 100 <= 100) by lra.
  pose proof (np_percentile_interpolate _ _ (simulated_nonempty returns simulations Hsim)
                Hp0 Hp1) as Hq.
  destruct (calculate_monte_carlo_var_ok self returns c simulations pv _ Hne
              ltac:(lia) Hq) as [r [Hr _]].
  exists r. exact Hr.
Qed.

Lemma parametric_succeeds (returns : list Q) (c : Q) (pv : option Q) :
  returns <> [] ->
  exists r, calculate_parametric_var self returns c "normal" pv = Ok r.
Proof.
  intros Hne. unfold calculate_parametric_var.
  destruct returns as [| x xs]; [congruence |].
  eexists. reflexivity.
Qed.

Lemma historical_succeeds (returns : list Q) (c : Q) (pv : option Q) :
  returns <> [] -> 0 <= c -> c <= 1 ->
  exists r, calculate_historical_var self returns c pv = Ok r.
Proof.
  intros Hne Hc0 Hc1.
  assert (Hp0 : 0 <= (1 - c) * 100) by lra.
  assert (Hp1 : (1 - c) * 100 <= 100) by lra.
  destruct (calculate_historical_var_ok self returns c pv _ Hne
              (np_percentile_interpolate returns _ Hne Hp0 Hp1)) as [r [Hr _]].
  exists r. exact Hr.
Qed.

(** The hybrid estimator once its three sub-results are known. *)
Lemma calculate_hybrid_var_steps (returns : list Q) (c : Q)
    (weights : option (list (string * Q))) (pv : option Q)
    (hr pr mr : VaRResult.t) :
  calculate_historical_var self returns c pv = Ok hr ->
  calculate_parametric_var self returns c "normal" pv = Ok pr ->
  calculate_monte_carlo_var self returns c 5000 pv = Ok mr ->
  let W := match weights with None => default_weights | Some w => w end in
  (forall e, getitem W "historical" = Raise e ->
             calculate_hybrid_var self returns c weights pv = Raise e) /\
  (forall wh e, getitem W "historical" = Ok wh -> getitem W "parametric" = Raise e ->
                calculate_hybrid_var self returns c weights pv = Raise e) /\
  (forall wh wp e,
     getitem W "historical" = Ok wh -> getitem W "parametric" = Ok wp ->
     getitem W "monte_carlo" = Raise e ->
     calculate_hybrid_var self returns c weights pv = Raise e) /\
  (forall wh wp wm,
     getitem W "historical" = Ok wh -> getitem W "parametric" = Ok wp ->
     getitem W "monte_carlo" = Ok wm ->
     exists r,
       calculate_hybrid_var self returns c weights pv = Ok r /\
       VaRResult.var_value r =
         wh * VaRResult.var_value hr + wp * VaRResult.var_value pr +
         wm * VaRResult.var_value mr /\
       VaRResult.cvar_value r =
         wh * VaRResult.cvar_value hr + wp * VaRResult.cvar_value pr +
         wm * VaRResult.cvar_value mr /\
       VaRResult.expected_shortfall r = VaRResult.cvar_value r /\
       VaRResult.var_percentage r =
         VaRResult.var_value r / py_or pv (VaRCalculator.portfolio_value self) * 100).
Proof.
  intros Hh Hp Hm W.
  assert (Hne : returns <> []).
  { apply (calculate_historical_var_inv self _ _ _ _ Hh). }
  unfold calculate_hybrid_var.
  destruct returns as [| x xs]; [congruence |].
  cbv beta iota delta [is_empty]. rewrite Hh, Hp, Hm.
  cbv beta iota delta [bind]. fold W.
  repeat split.
  - intros e He. rewrite He. reflexivity.
  - intros wh e Hwh He. rewrite Hwh, He. reflexivity.
  - intros wh wp e Hwh Hwp He. rewrite Hwh, Hwp, He. reflexivity.
  - intros wh wp wm Hwh Hwp Hwm. rewrite Hwh, Hwp, Hwm.
    eexists. split; [reflexivity |]. repeat split.
Qed.

End HybridFacts.

(** X8.  The Monte Carlo estimator, on a non-empty series: a negative
    simulation count raises numpy's size error; with at least one
    simulation and a confidence level in [0,1] a result is returned, whose
    [data_points] is the length of the input series (not the number of
    simulations) and whose statistics record the simulation count. *)
Theorem monte_carlo_simulation_count {rt : Runtime} (self : VaRCalculator.t)
    (returns : list Q) (c : Q) (simulations : Z) (pv : option Q) :
  returns <> [] ->
  ((simulations < 0)%Z ->
   calculate_monte_carlo_var self returns c simulations pv =
     Raise ValueError_negative_size) /\
  ((0 < simulations)%Z -> 0 <= c -> c <= 1 ->
   exists r,
     calculate_monte_carlo_var self returns c simulations pv = Ok r /\
     VaRResult.data_points r = length returns /\
     getitem (VaRResult.additional_stats r) "simulations" = Ok (PInt simulations)).
Proof.
  intros Hne. split.
  - intros Hneg. unfold calculate_monte_carlo_var.
    destruct returns as [| x xs]; [congruence |].
    cbv beta iota delta [is_empty].
    apply Z.ltb_lt in Hneg. rewrite Hneg. reflexivity.
  - intros Hsim Hc0 Hc1.
    destruct (monte_carlo_succeeds self returns c simulations pv Hne Hc0 Hc1 Hsim)
      as [r Hr].
    exists r. split; [exact Hr |].
    destruct (calculate_monte_carlo_var_inv self _ _ _ _ _ Hr)
      as [_ [_ [q [Hq [_ [_ [_ [_ [_ [_ [Hdp _]]]]]]]]]]].
    split; [exact Hdp |].
    revert Hr. unfold calculate_monte_carlo_var.
    destruct returns as [| x xs]; [congruence |].
    cbv beta iota delta [is_empty].
    destruct (simulations <? 0)%Z; cbv beta iota delta [bind]; [discriminate |].
    fold (simulated (x :: xs) simulations). rewrite Hq.
    intros H. injection H as <-. reflexivity.
Qed.

Lemma monte_carlo_simulation_count_witness :
  @calculate_monte_carlo_var toy_runtime VaRCalculator.default
    sample_returns 0.95 (-1) None = Raise ValueError_negative_size /\
  exists r,
    @calculate_monte_carlo_var toy_runtime VaRCalculator.default
      sample_returns 0.95 1000 None = Ok r /\
    VaRResult.data_points r = 10%nat /\
    getitem (VaRResult.additional_stats r) "simulations" = Ok (PInt 1000).
Proof.
  assert (Hne : sample_returns <> []) by discriminate.
  destruct (@monte_carlo_simulation_count toy_runtime VaRCalculator.default
              sample_returns 0.95 (-1) None Hne) as [Hneg _].
  destruct (@monte_carlo_simulation_count toy_runtime VaRCalculator.default
              sample_returns 0.95 1000 None Hne) as [_ Hpos].
  split; [apply Hneg; reflexivity |].
  apply Hpos; [reflexivity | discriminate | discriminate].
Defined.

(** X9.  The hybrid estimator, on a non-empty series and a confidence
    level in [0,1], runs its three estimators and then reads the weights
    "historical", "parametric" and "monte_carlo" in this order: the first
    key that is missing raises [KeyError] for it; with all three present
    (the defaults 0.4, 0.3, 0.3 when no weights are given) the result
    holds the weighted sums of the three VaR and of the three CVaR
    values, and other keys play no role. *)
Theorem hybrid_weight_lookup {rt : Runtime} (self : VaRCalculator.t)
    (returns : list Q) (c : Q) (weights : option (list (string * Q)))
    (pv : option Q) :
  returns <> [] -> 0 <= c -> c <= 1 ->
  let W := match weights with None => default_weights | Some w => w end in
  exists hr pr mr,
    calculate_historical_var self returns c pv = Ok hr /\
    calculate_parametric_var self returns c "normal" pv = Ok pr /\
    calculate_monte_carlo_var self returns c 5000 pv = Ok mr /\
    (forall e, getitem W "historical" = Raise e ->
               calculate_hybrid_var self returns c weights pv = Raise e) /\
    (forall wh e, getitem W "historical" = Ok wh -> getitem W "parametric" = Raise e ->
                  calculate_hybrid_var self returns c weights pv = Raise e) /\
    (forall wh wp e,
       getitem W "historical" = Ok wh -> getitem W "parametric" = Ok wp ->
       getitem W "monte_carlo" = Raise e ->
       calculate_hybrid_var self returns c weights pv = Raise e) /\
    (forall wh wp wm,
       getitem W "historical" = Ok wh -> getitem W "parametric" = Ok wp ->
       getitem W "monte_carlo" = Ok wm ->
       exists r,
         calculate_hybrid_var self returns c weights pv = Ok r /\
         VaRResult.var_value r =
           wh * VaRResult.var_value hr + wp * VaRResult.var_value pr +
           wm * VaRResult.var_value mr /\
         VaRResult.cvar_value r =
           wh * VaRResult.cvar_value hr + wp * VaRResult.cvar_value pr +
           wm * VaRResult.cvar_value mr /\
         VaRResult.expected_shortfall r = VaRResult.cvar_value r).
Proof.
  intros Hne Hc0 Hc1 W.
  destruct (historical_succeeds self returns c pv Hne Hc0 Hc1) as [hr Hh].
  destruct (parametric_succeeds self returns c pv Hne) as [pr Hp].
  destruct (monte_carlo_succeeds self returns c 5000 pv Hne Hc0 Hc1 eq_refl)
    as [mr Hm].
  destruct (calculate_hybrid_var_steps self returns c weights pv hr pr mr Hh Hp Hm)
    as [H1 [H2 [H3 H4]]].
  exists hr, pr, mr. repeat split; auto.
  intros wh wp wm Hwh Hwp Hwm.
  destruct (H4 wh wp wm Hwh Hwp Hwm) as [r [Hr [Hv [Hcv [Hes _]]]]].
  exists r. repeat split; assumption.
Qed.

Lemma hybrid_weight_lookup_witness :
  @calculate_hybrid_var toy_runtime VaRCalculator.default sample_returns 0.95
    (Some [("historical", 1)]%string) None = Raise (KeyError "parametric") /\
  exists hr pr mr r,
    @calculate_historical_var toy_runtime VaRCalculator.default
      sample_returns 0.95 None = Ok hr /\
    @calculate_parametric_var toy_runtime VaRCalculator.default
      sample_returns 0.95 "normal" None = Ok pr /\
    @calculate_monte_carlo_var toy_runtime VaRCalculator.default
      sample_returns 0.95 5000 None = Ok mr /\
    @calculate_hybrid_var toy_runtime VaRCalculator.default
      sample_returns 0.95 None None = Ok r /\
    VaRResult.var_value r =
      (4 # 10) * VaRResult.var_value hr + (3 # 10) * VaRResult.var_value pr +
      (3 # 10) * VaRResult.var_value mr.
Proof.
  assert (Hne : sample_returns <> []) by discriminate.
  assert (Hc0 : 0 <= 0.95) by discriminate.
  assert (Hc1 : 0.95 <= 1) by discriminate.
  split.
  - destruct (@hybrid_weight_lookup toy_runtime VaRCalculator.default
                sample_returns 0.95 (Some [("historical", 1)]%string) None
                Hne Hc0 Hc1) as [hr [pr [mr [_ [_ [_ [_ [H2 _]]]]]]]].
    apply (H2 1); reflexivity.
  - destruct (@hybrid_weight_lookup toy_runtime VaRCalculator.default
                sample_returns 0.95 None None Hne Hc0 Hc1)
      as [hr [pr [mr [Hh [Hp [Hm [_ [_ [_ H4]]]]]]]]].
    destruct (H4 (4 # 10) (3 # 10) (3 # 10) eq_refl eq_refl eq_refl)
      as [r [Hr [Hv _]]].
    exists hr, pr, mr, r. repeat split; assumption.
Defined.

(** ** The backtest validator *)

Section ValidatorFacts.
Context {rt : Runtime}.

Lemma validate_var_model_ok (returns var_estimates : list Q) (c : Q)
    (method : string) :
  length returns = length var_estimates ->
  let violations := count_violations returns var_estimates in
  let n := length returns in
  validate_var_model returns var_estimates c method =
    Ok (VaRValidationResult.mk method c violations n
          (pyfloat_div (Fin (nat_Q violations)) (nat_Q n))
          (py_int (nat_Q n * (1 - c)))
          (fst (kupiec_test violations n c)) (snd (kupiec_test violations n c))
          (negb (Qle_bool (snd (kupiec_test violations n c)) (5 # 100)))
          now_isoformat).
Proof.
  intros Hlen violations n. unfold validate_var_model.
  rewrite Hlen, Nat.eqb_refl. cbv beta iota delta [negb].
  rewrite <- Hlen. fold violations. fold n.
  change (if (violations =? 0)%nat then (Fin 0, 1) else _)
    with (kupiec_test violations n c).
  destruct (kupiec_test violations n c) as [stat p]. reflexivity.
Qed.

Lemma count_violations_le (returns var_estimates : list Q) :
  (count_violations returns var_estimates <= length returns)%nat.
Proof.
  revert var_estimates.
  induction returns as [| r returns IH]; intros [| v var_estimates]; simpl; try lia.
  specialize (IH var_estimates). destruct (Qle_bool (- v) r); lia.
Qed.

Lemma count_violations_all (returns var_estimates : list Q) :
  length returns = length var_estimates ->
  (forall i r v, nth_error returns i = Some r -> nth_error var_estimates i = Some v ->
                 r < - v) ->
  count_violations returns var_estimates = length returns.
Proof.
  revert var_estimates.
  induction returns as [| r returns IH]; intros [| v var_estimates] Hlen H;
    simpl in *; try discriminate; auto.
  assert (Hrv : Qle_bool (- v) r = false).
  { destruct (Qle_bool (- v) r) eqn:E; [| reflexivity].
    apply Qle_bool_iff in E. pose proof (H 0%nat r v eq_refl eq_refl). lra. }
  rewrite Hrv. simpl. f_equal. apply IH; [lia |].
  intros i r' v' Hr' Hv'. apply (H (S i) r' v'); assumption.
Qed.

Lemma count_violations_mono (returns est est' : list Q) :
  Forall2 Qle est est' ->
  (count_violations returns est' <= count_violations returns est)%nat.
Proof.
  intros Hle. revert returns.
  induction Hle as [| v v' est est' Hv Hrest IH]; intros [| r returns]; simpl; try lia.
  specialize (IH returns).
  destruct (Qle_bool (- v') r) eqn:E'; destruct (Qle_bool (- v) r) eqn:E; try lia.
  apply Qle_bool_iff in E.
  assert (Qle_bool (- v') r = true) by (apply Qle_bool_iff; lra).
  congruence.
Qed.
End ValidatorFacts.

(** X11.  The validator raises the length-mismatch error exactly when
    the two series differ in length.  Otherwise it returns a result that
    echoes the method and the confidence level, counts the observations,
    never reports more violations than observations, and declares the
    model valid exactly when the Kupiec p-value exceeds 0.05. *)
Theorem validation_result_invariants {rt : Runtime}
    (returns var_estimates : list Q) (c : Q) (method : string) :
  (length returns <> length var_estimates ->
   validate_var_model returns var_estimates c method =
     Raise ValueError_length_mismatch) /\
  (length returns = length var_estimates ->
   exists res,
     validate_var_model returns var_estimates c method = Ok res /\
     VaRValidationResult.method res = method /\
     VaRValidationResult.confidence_level res = c /\
     VaRValidationResult.total_observations res = length returns /\
     (VaRValidationResult.violations res <=
      VaRValidationResult.total_observations res)%nat /\
     (VaRValidationResult.is_model_valid res = true <->
      5 # 100 < VaRValidationResult.kupiec_p_value res)).
Proof.
  split.
  - intros Hneq. unfold validate_var_model.
    apply Nat.eqb_neq in Hneq. rewrite Hneq. reflexivity.
  - intros Hlen. eexists.
    split; [apply (validate_var_model_ok returns var_estimates c method Hlen) |].
    cbv beta iota delta [VaRValidationResult.method VaRValidationResult.confidence_level
      VaRValidationResult.total_observations VaRValidationResult.violations
      VaRValidationResult.is_model_valid VaRValidationResult.kupiec_p_value].
    repeat split; auto using count_violations_le.
    + intros Hvalid. apply negb_true_iff in Hvalid.
      apply Qnot_le_lt. intros Hle. apply Qle_bool_iff in Hle. congruence.
    + intros Hlt. apply negb_true_iff.
      destruct (Qle_bool _ (5 # 100)) eqn:E; [| reflexivity].
      apply Qle_bool_iff in E. lra.
Qed.

Lemma validation_result_invariants_witness :
  @validate_var_model toy_runtime [0.01; 0.02; 0.03] [0.02; 0.03] 0.95 "historical"
    = Raise ValueError_length_mismatch /\
  exists res,
    @validate_var_model toy_runtime
      [-0.06; -0.02; 0.01; -0.04; 0.02; -0.03; 0.01; -0.01; 0.02; -0.05]
      [0.03; 0.03; 0.03; 0.03; 0.03; 0.03; 0.03; 0.03; 0.03; 0.03]
      0.95 "historical" = Ok res /\
    VaRValidationResult.method res = "historical"%string /\
    VaRValidationResult.confidence_level res = 0.95 /\
    VaRValidationResult.total_observations res = 10%nat /\
    (VaRValidationResult.violations res <=
     VaRValidationResult.total_observations res)%nat /\
    (VaRValidationResult.is_model_valid res = true <->
     5 # 100 < VaRValidationResult.kupiec_p_value res).
Proof.
  split.
  - apply (@validation_result_invariants toy_runtime). discriminate.
  - apply (@validation_result_invariants toy_runtime
             [-0.06; -0.02; 0.01; -0.04; 0.02; -0.03; 0.01; -0.01; 0.02; -0.05]
             [0.03; 0.03; 0.03; 0.03; 0.03; 0.03; 0.03; 0.03; 0.03; 0.03]).
    reflexivity.
Defined.

(** X12.  The violation rate of a non-empty backtest is the fraction of
    violations among the observations, between 0 and 1; for two empty
    series it is not a number (0 divided by 0), and the result then still
    reports a valid model with statistic 0 and p-value 1. *)
Theorem violation_rate_is_a_fraction {rt : Runtime}
    (returns var_estimates : list Q) (c : Q) (method : string) :
  length returns = length var_estimates ->
  exists res,
    validate_var_model returns var_estimates c method = Ok res /\
    (returns <> [] ->
     exists p,
       VaRValidationResult.violation_rate res = Fin p /\
       p == nat_Q (VaRValidationResult.violations res) /
            nat_Q (VaRValidationResult.total_observations res) /\
       0 <= p /\ p <= 1) /\
    (returns = [] ->
     VaRValidationResult.violation_rate res = NaN /\
     VaRValidationResult.kupiec_statistic res = Fin 0 /\
     VaRValidationResult.kupiec_p_value res = 1 /\
     VaRValidationResult.is_model_valid res = true).
Proof.
  intros Hlen. eexists.
  split; [apply (validate_var_model_ok returns var_estimates c method Hlen) |].
  cbv beta iota delta [VaRValidationResult.violation_rate
    VaRValidationResult.total_observations VaRValidationResult.violations
    VaRValidationResult.is_model_valid VaRValidationResult.kupiec_p_value
    VaRValidationResult.kupiec_statistic].
  split.
  - intros Hne.
    assert (Hn : 0 < nat_Q (length returns)).
    { apply nat_Q_pos. destruct returns; simpl; [congruence | lia]. }
    unfold pyfloat_div.
    destruct (Qeq_bool (nat_Q (length returns)) 0) eqn:E.
    { apply Qeq_bool_iff in E. lra. }
    eexists. split; [reflexivity |]. split; [reflexivity |].
    pose proof (nat_Q_nonneg (count_violations returns var_estimates)) as Hv.
    assert (Hle : nat_Q (count_violations returns var_estimates) <=
                  nat_Q (length returns)).
    { unfold nat_Q. rewrite <- Zle_Qle. apply Nat2Z.inj_le, count_violations_le. }
    split.
    + apply Qle_shift_div_l; [exact Hn | lra].
    + apply Qle_shift_div_r; [exact Hn | lra].
  - intros ->. repeat split.
Qed.

Lemma violation_rate_is_a_fraction_witness :
  (exists res,
     @validate_var_model toy_runtime [-0.06; 0.01] [0.03; 0.03] 0.95 "historical"
       = Ok res /\
     exists p, VaRValidationResult.violation_rate res = Fin p /\ p == 1 # 2) /\
  (exists res,
     @validate_var_model toy_runtime [] [] 0.95 "historical" = Ok res /\
     VaRValidationResult.violation_rate res = NaN /\
     VaRValidationResult.is_model_valid res = true).
Proof.
  split.
  - destruct (@violation_rate_is_a_fraction toy_runtime
                [-0.06; 0.01] [0.03; 0.03] 0.95 "historical" eq_refl)
      as [res [Hres [Hne _]]].
    exists res. split; [exact Hres |].
    destruct (Hne ltac:(discriminate)) as [p [Hp [Hfrac _]]].
    exists p. split; [exact Hp |].
    rewrite Hfrac. vm_compute in Hres. injection Hres as <-. reflexivity.
  - destruct (@violation_rate_is_a_fraction toy_runtime
                [] [] 0.95 "historical" eq_refl)
      as [res [Hres [_ Hempty]]].
    exists res. split; [exact Hres |].
    destruct (Hempty eq_refl) as [Hnan [_ [_ Hvalid]]]. split; assumption.
Defined.

(** X13.  When every period is a violation (and there is at least one
    period) the observed rate is 1, the logarithm of the test is not
    defined, and the validator reports an infinite statistic, p-value 0
    and an invalid model. *)
Theorem all_violations_rejects_model {rt : Runtime}
    (returns var_estimates : list Q) (c : Q) (method : string) :
  returns <> [] -> length returns = length var_estimates ->
  (forall i r v, nth_error returns i = Some r -> nth_error var_estimates i = Some v ->
                 r < - v) ->
  exists res,
    validate_var_model returns var_estimates c method = Ok res /\
    VaRValidationResult.violations res = length returns /\
    VaRValidationResult.violation_rate res = Fin (nat_Q (length returns) / nat_Q (length returns)) /\
    VaRValidationResult.kupiec_statistic res = PosInf /\
    VaRValidationResult.kupiec_p_value res = 0 /\
    VaRValidationResult.is_model_valid res = false.
Proof.
  intros Hne Hlen Hall. eexists.
  split; [apply (validate_var_model_ok returns var_estimates c method Hlen) |].
  cbv beta iota delta [VaRValidationResult.violation_rate
    VaRValidationResult.total_observations VaRValidationResult.violations
    VaRValidationResult.is_model_valid VaRValidationResult.kupiec_p_value
    VaRValidationResult.kupiec_statistic].
  rewrite (count_violations_all returns var_estimates Hlen Hall).
  assert (Hpos : (0 < length returns)%nat) by (destruct returns; simpl; [congruence | lia]).
  assert (Hn : 0 < nat_Q (length returns)) by (apply nat_Q_pos; exact Hpos).
  assert (Hk : kupiec_test (length returns) (length returns) c = (PosInf, 0)).
  { unfold kupiec_test, pyfloat_div.
    destruct (length returns =? 0)%nat eqn:E0; [apply Nat.eqb_eq in E0; lia |].
    destruct (Qeq_bool (nat_Q (length returns)) 0) eqn:E.
    { apply Qeq_bool_iff in E. lra. }
    assert (H1 : Qle_bool 1 (nat_Q (length returns) / nat_Q (length returns)) = true).
    { apply Qle_bool_iff. apply Qle_shift_div_l; [exact Hn | lra]. }
    rewrite H1. rewrite andb_false_r. reflexivity. }
  rewrite Hk. unfold pyfloat_div.
  destruct (Qeq_bool (nat_Q (length returns)) 0) eqn:E.
  { apply Qeq_bool_iff in E. lra. }
  repeat split.
Qed.

Lemma all_violations_rejects_model_witness :
  exists res,
    @validate_var_model toy_runtime [-0.06; -0.04] [0.03; 0.03] 0.95 "historical"
      = Ok res /\
    VaRValidationResult.violations res = 2%nat /\
    VaRValidationResult.kupiec_statistic res = PosInf /\
    VaRValidationResult.kupiec_p_value res = 0 /\
    VaRValidationResult.is_model_valid res = false.
Proof.
  destruct (@all_violations_rejects_model toy_runtime
              [-0.06; -0.04] [0.03; 0.03] 0.95 "historical")
    as [res [Hres [Hv [_ [Hs [Hp Hvalid]]]]]].
  - discriminate.
  - reflexivity.
  - intros i r v Hr Hv.
    do 2 (destruct i as [| i];
          [ injection Hr as <-; injection Hv as <-; reflexivity | ]).
    destruct i; discriminate.
  - exists res. repeat split; assumption.
Defined.

(** X14.  The expected number of violations, [int(n * (1 - c))], is a
    count between 0 and the number of observations: not negative for a
    confidence level of at most 1, at most [n] for a confidence level of
    at least 0; it is 0 at confidence 1 and [n] at confidence 0. *)
Theorem expected_violations_range {rt : Runtime}
    (returns var_estimates : list Q) (c : Q) (method : string) :
  length returns = length var_estimates ->
  exists res,
    validate_var_model returns var_estimates c method = Ok res /\
    (c <= 1 -> (0 <= VaRValidationResult.expected_violations res)%Z) /\
    (0 <= c ->
     (VaRValidationResult.expected_violations res <= Z.of_nat (length returns))%Z) /\
    (c == 1 -> VaRValidationResult.expected_violations res = 0%Z) /\
    (c == 0 -> VaRValidationResult.expected_violations res = Z.of_nat (length returns)).
Proof.
  intros Hlen. eexists.
  split; [apply (validate_var_model_ok returns var_estimates c method Hlen) |].
  cbv beta iota delta [VaRValidationResult.expected_violations].
  pose proof (nat_Q_nonneg (length returns)) as Hn.
  set (x := nat_Q (length returns) * (1 - c)).
  assert (Hlow : c <= 1 -> py_int x = Qfloor x /\ (0 <= py_int x)%Z).
  { intros Hc1.
    assert (Hx : 0 <= x).
    { unfold x. apply Qmult_le_0_compat; [exact Hn | lra]. }
    unfold py_int. apply (proj2 (Qle_bool_iff 0 x)) in Hx as Hb. rewrite Hb.
    split; [reflexivity |].
    change 0%Z with (Qfloor 0). apply Qfloor_resp_le. exact Hx. }
  split; [intros Hc1; apply (Hlow Hc1) |].
  split.
  - intros Hc0.
    assert (Hx : x <= nat_Q (length returns)).
    { unfold x.
      setoid_replace (nat_Q (length returns)) with (nat_Q (length returns) * 1) at 2
        by ring.
      rewrite !(Qmult_comm (nat_Q (length returns))).
      apply Qmult_le_compat_r; [lra | exact Hn]. }
    unfold py_int. destruct (Qle_bool 0 x) eqn:Hb.
    + rewrite <- (Qfloor_Z (Z.of_nat (length returns))).
      apply Qfloor_resp_le. exact Hx.
    + assert (Hneg : x <= 0).
      { destruct (Qlt_le_dec 0 x) as [H | H]; [| exact H].
        apply Qlt_le_weak in H. apply Qle_bool_iff in H. congruence. }
      apply Z.le_trans with 0%Z; [| lia].
      change 0%Z with (Qceiling 0). apply Qceiling_resp_le. exact Hneg.
  - split.
    + intros Hc. destruct (Hlow ltac:(lra)) as [-> _].
      assert (Hx : x == 0) by (unfold x; rewrite Hc; ring).
      rewrite Hx. reflexivity.
    + intros Hc. destruct (Hlow ltac:(lra)) as [-> _].
      assert (Hx : x == inject_Z (Z.of_nat (length returns))).
      { unfold x, nat_Q. rewrite Hc. ring. }
      rewrite Hx. apply Qfloor_Z.
Qed.

Lemma expected_violations_range_witness :
  exists res,
    @validate_var_model toy_runtime
      [-0.06; -0.02; 0.01; -0.04; 0.02; -0.03; 0.01; -0.01; 0.02; -0.05]
      (repeat 0.03 10) 0.95 "historical" = Ok res /\
    (0 <= VaRValidationResult.expected_violations res)%Z /\
    (VaRValidationResult.expected_violations res <= 10)%Z.
Proof.
  destruct (@expected_violations_range toy_runtime
      [-0.06; -0.02; 0.01; -0.04; 0.02; -0.03; 0.01; -0.01; 0.02; -0.05]
      (repeat 0.03 10) 0.95 "historical" eq_refl) as [res [Hres [Hlo [Hhi _]]]].
  exists res. split; [exact Hres |].
  split; [apply Hlo; discriminate | apply Hhi; discriminate].
Defined.

(** X15.  More conservative estimates never produce more violations: if
    every estimate of a second series is at least the corresponding
    estimate of the first, the second backtest of the same returns
    reports at most as many violations. *)
Theorem violations_decrease_with_estimates {rt : Runtime}
    (returns est est' : list Q) (c : Q) (method : string) :
  length returns = length est -> Forall2 Qle est est' ->
  exists res res',
    validate_var_model returns est c method = Ok res /\
    validate_var_model returns est' c method = Ok res' /\
    (VaRValidationResult.violations res' <= VaRValidationResult.violations res)%nat.
Proof.
  intros Hlen Hle.
  assert (Hlen' : length returns = length est').
  { rewrite Hlen. apply (Forall2_length Hle). }
  eexists. eexists.
  split; [apply (validate_var_model_ok returns est c method Hlen) |].
  split; [apply (validate_var_model_ok returns est' c method Hlen') |].
  cbv beta iota delta [VaRValidationResult.violations].
  apply count_violations_mono. exact Hle.
Qed.

Lemma violations_decrease_with_estimates_witness :
  exists res res',
    @validate_var_model toy_runtime [-0.06; -0.02; -0.04] [0.03; 0.03; 0.03]
      0.95 "historical" = Ok res /\
    @validate_var_model toy_runtime [-0.06; -0.02; -0.04] [0.05; 0.03; 0.04]
      0.95 "historical" = Ok res' /\
    (VaRValidationResult.violations res' <= VaRValidationResult.violations res)%nat.
Proof.
  apply (@violations_decrease_with_estimates toy_runtime).
  - reflexivity.
  - repeat constructor; discriminate.
Defined.

(** ** The portfolio aggregator *)

Section AggregatorFacts.
Context {rt : Runtime}.
Variable self : VaRCalculator.t.

Lemma base_var_nonempty (method : string) (returns : list Q) (c value : Q)
    (r : VaRResult.t) :
  base_var self method returns c value = Ok r ->
  returns <> [] /\ 0 <= VaRResult.var_value r.
Proof.
  unfold base_var. destruct (String.eqb method "historical"); intros Hr.
  - destruct (calculate_historical_var_inv self _ _ _ _ Hr)
      as [Hne [q [_ [Hv _]]]].
    split; [exact Hne | rewrite Hv; apply Qabs_nonneg].
  - destruct (calculate_parametric_var_inv self _ _ _ _ _ Hr)
      as [Hne [_ [Hv _]]].
    split; [exact Hne | rewrite Hv; apply Qabs_nonneg].
Qed.

Lemma base_var_succeeds (method : string) (returns : list Q) (c value : Q) :
  returns <> [] -> 0 <= c -> c <= 1 ->
  exists r, base_var self method returns c value = Ok r.
Proof.
  intros Hne Hc0 Hc1. unfold base_var.
  destruct (String.eqb method "historical").
  - apply historical_succeeds; assumption.
  - apply parametric_succeeds; assumption.
Qed.

(** Every asset the loop went through had a weight and a non-empty
    series. *)
Lemma individual_loop_items (weights : list (string * Q)) (c : Q)
    (method : string) (V : Q) (items : list (string * list Q)) :
  forall acc mat iv mat',
    individual_loop self items weights c method V acc mat = Ok (iv, mat') ->
    forall a rs, In (a, rs) items ->
      rs <> [] /\ exists w, getitem weights a = Ok w.
Proof.
  induction items as [| [a0 rs0] items IH]; intros acc mat iv mat' Hloop a rs Hin.
  - destruct Hin.
  - simpl in Hloop.
    destruct (getitem weights a0) as [w0 | e] eqn:Hw0; simpl in Hloop;
      [| discriminate].
    destruct (base_var self method rs0 c (V * w0)) as [vr0 | e] eqn:Hvr0;
      simpl in Hloop; [| discriminate].
    destruct Hin as [Heq | Hin].
    + injection Heq as <- <-. split; [| exists w0; exact Hw0].
      apply (base_var_nonempty _ _ _ _ _ Hvr0).
    + apply (IH _ _ _ _ Hloop a rs Hin).
Qed.

Lemma setitem_fresh {A : Type} (d : list (string * A)) (k : string) (v : A) :
  ~ In k (map fst d) -> setitem d k v = d ++ [(k, v)].
Proof.
  induction d as [| [k' v'] d IH]; simpl; intros Hk; [reflexivity |].
  destruct (String.eqb k' k) eqn:E.
  - apply String.eqb_eq in E. tauto.
  - rewrite IH by tauto. reflexivity.
Qed.

(** With pairwise distinct asset names the loop appends one entry per
    asset, in order, each of them a non-negative VaR. *)
Lemma individual_loop_keys (weights : list (string * Q)) (c : Q)
    (method : string) (V : Q) (items : list (string * list Q)) :
  forall acc mat iv mat',
    NoDup (map fst acc ++ map fst items) ->
    individual_loop self items weights c method V acc mat = Ok (iv, mat') ->
    map fst iv = map fst acc ++ map fst items /\
    (Forall (fun kv => 0 <= snd kv) acc -> Forall (fun kv => 0 <= snd kv) iv).
Proof.
  induction items as [| [a0 rs0] items IH]; intros acc mat iv mat' Hnd Hloop.
  - simpl in Hloop. injection Hloop as <- <-. rewrite app_nil_r. auto.
  - simpl in Hloop.
    destruct (getitem weights a0) as [w0 | e] eqn:Hw0; simpl in Hloop;
      [| discriminate].
    destruct (base_var self method rs0 c (V * w0)) as [vr0 | e] eqn:Hvr0;
      simpl in Hloop; [| discriminate].
    simpl in Hnd.
    assert (Hfresh : ~ In a0 (map fst acc)).
    { apply NoDup_remove_2 in Hnd. intros Hin. apply Hnd.
      apply in_or_app. left. exact Hin. }
    rewrite (setitem_fresh acc a0 _ Hfresh) in Hloop.
    assert (Hnd' : NoDup (map fst (acc ++ [(a0, VaRResult.var_value vr0)]) ++
                          map fst items)).
    { rewrite map_app, <- app_assoc. exact Hnd. }
    destruct (IH _ _ _ _ Hnd' Hloop) as [Hkeys Hpos].
    split.
    + rewrite Hkeys, map_app, <- app_assoc. reflexivity.
    + intros Hacc. apply Hpos. apply Forall_app. split; [exact Hacc |].
      constructor; [| constructor]. simpl.
      apply (base_var_nonempty _ _ _ _ _ Hvr0).
Qed.

Lemma individual_loop_succeeds (weights : list (string * Q)) (c : Q)
    (method : string) (V : Q) (items : list (string * list Q)) :
  0 <= c -> c <= 1 ->
  (forall a rs, In (a, rs) items -> rs <> [] /\ exists w, getitem weights a = Ok w) ->
  forall acc mat, exists iv mat',
    individual_loop self items weights c method V acc mat = Ok (iv, mat').
Proof.
  intros Hc0 Hc1. induction items as [| [a0 rs0] items IH]; intros Hall acc mat.
  - simpl. eexists. eexists. reflexivity.
  - simpl. destruct (Hall a0 rs0 (or_introl eq_refl)) as [Hne [w0 Hw0]].
    rewrite Hw0. simpl.
    destruct (base_var_succeeds method rs0 c (V * w0) Hne Hc0 Hc1) as [vr0 Hvr0].
    rewrite Hvr0. simpl. apply IH.
    intros a rs Hin. apply Hall. right. exact Hin.
Qed.

Lemma weighted_sum_succeeds (weights : list (string * Q)) (i : nat)
    (items : list (string * list Q)) :
  (forall a rs, In (a, rs) items -> exists w, getitem weights a = Ok w) ->
  forall acc, exists s, weighted_sum items weights i acc = Ok s.
Proof.
  induction items as [| [a0 rs0] items IH]; intros Hall acc; simpl.
  - eexists. reflexivity.
  - destruct (Hall a0 rs0 (or_introl eq_refl)) as [w0 Hw0]. rewrite Hw0. simpl.
    apply IH. intros a rs Hin. apply (Hall a rs). right. exact Hin.
Qed.

Lemma portfolio_returns_loop_succeeds (weights : list (string * Q))
    (items : list (string * list Q)) (indices : list nat) :
  (forall a rs, In (a, rs) items -> exists w, getitem weights a = Ok w) ->
  exists prs, portfolio_returns_loop items weights indices = Ok prs /\
              length prs = length indices.
Proof.
  intros Hall. induction indices as [| i indices IH]; simpl.
  - exists []. auto.
  - destruct (weighted_sum_succeeds weights i items Hall 0) as [s Hs].
    destruct IH as [prs [Hprs Hlen]].
    rewrite Hs, Hprs. simpl. exists (s :: prs). simpl. auto.
Qed.

Lemma py_min_nat_positive (m : nat) (l : list nat) :
  (0 < m)%nat -> Forall (fun x => (0 < x)%nat) l -> (0 < py_min_nat m l)%nat.
Proof.
  intros Hm Hl. revert m Hm. induction Hl as [| x l Hx Hl IH]; intros m Hm; simpl.
  - exact Hm.
  - apply IH. lia.
Qed.

Lemma np_array2_equal_lengths (rows : list (list Q)) :
  (forall r1 r2, In r1 rows -> In r2 rows -> length r1 = length r2) ->
  np_array2 rows = Ok rows.
Proof.
  intros Heq. destruct rows as [| r0 rs]; [reflexivity |].
  unfold np_array2.
  assert (E : forallb (fun r' => (length r' =? length r0)%nat) rs = true).
  { apply forallb_forall. intros r Hr. apply Nat.eqb_eq.
    apply Heq; [right; exact Hr | left; reflexivity]. }
  rewrite E. reflexivity.
Qed.

Lemma np_array2_same (rows arr : list (list Q)) :
  np_array2 rows = Ok arr -> arr = rows.
Proof.
  destruct rows as [| r0 rs]; simpl.
  - intros H. injection H as <-. reflexivity.
  - destruct (forallb _ rs); [| discriminate]. intros H. injection H as <-.
    reflexivity.
Qed.

(** What a returned portfolio result is made of. *)
Lemma calculate_portfolio_var_inv (assets : list (string * list Q))
    (weights : list (string * Q)) (c : Q) (method : string) (pv : option Q)
    (r : PortfolioVaRResult.t) :
  calculate_portfolio_var self assets weights c method pv = Ok r ->
  let V := py_or pv (VaRCalculator.portfolio_value self) in
  assets <> [] /\
  exists iv prs pvr,
    individual_loop self assets weights c method V [] [] = Ok (iv, map snd assets) /\
    np_array2 (map snd assets) = Ok (map snd assets) /\
    base_var self method prs c V = Ok pvr /\
    PortfolioVaRResult.individual_vars r = iv /\
    PortfolioVaRResult.portfolio_var r = VaRResult.var_value pvr /\
    PortfolioVaRResult.diversification_benefit r =
      np_sum (map snd iv) - VaRResult.var_value pvr /\
    PortfolioVaRResult.correlation_matrix r = np_corrcoef (map snd assets).
Proof.
  intros Hr V. unfold calculate_portfolio_var in Hr. fold V in Hr.
  destruct (is_empty assets) eqn:Hemp; [discriminate |].
  split; [intros ->; discriminate |].
  destruct (individual_loop self assets weights c method V [] [])
    as [[iv mat] | e] eqn:Hloop; cbv beta iota delta [bind] in Hr; [| discriminate].
  destruct (individual_loop_spec self weights c method V _ _ _ _ _ Hloop) as [Hmat _].
  rewrite app_nil_l in Hmat. subst mat.
  destruct (np_array2 (map snd assets)) as [arr | e] eqn:Harr; [| discriminate].
  pose proof (np_array2_same _ _ Harr) as ->.
  destruct (portfolio_returns_loop _ _ _) as [prs | e]; [| discriminate].
  destruct (base_var self method prs c V) as [pvr | e] eqn:Hpvr; [| discriminate].
  injection Hr as <-.
  exists iv, prs, pvr. repeat split; auto.
Qed.
End AggregatorFacts.

Lemma getitem_absent {A : Type} (d : list (string * A)) (k : string) :
  (forall v, getitem d k <> Ok v) -> getitem d k = Raise (KeyError k).
Proof.
  intros Hno. induction d as [| [k' v'] d IH]; simpl in *; [reflexivity |].
  destruct (String.eqb k' k); [exfalso; apply (Hno v'); reflexivity | exact (IH Hno)].
Qed.

(** X16.  What the aggregator needs in order to return a result: at
    least one asset (no asset raises the empty-portfolio error), a weight
    and a non-empty series for every asset, and series of one common
    length.  A first asset without a weight raises [KeyError] for its
    name. *)
Theorem portfolio_result_requirements {rt : Runtime} (self : VaRCalculator.t)
    (assets : list (string * list Q)) (weights : list (string * Q))
    (c : Q) (method : string) (pv : option Q) :
  (assets = [] ->
   calculate_portfolio_var self assets weights c method pv =
     Raise ValueError_empty_assets) /\
  (forall a rs rest, assets = (a, rs) :: rest ->
     (forall w, getitem weights a <> Ok w) ->
     calculate_portfolio_var self assets weights c method pv = Raise (KeyError a)) /\
  (forall r, calculate_portfolio_var self assets weights c method pv = Ok r ->
     assets <> [] /\
     (forall a rs, In (a, rs) assets ->
        rs <> [] /\ exists w, getitem weights a = Ok w) /\
     (forall a1 s1 a2 s2, In (a1, s1) assets -> In (a2, s2) assets ->
        length s1 = length s2)).
Proof.
  split; [intros ->; reflexivity |]. split.
  - intros a rs rest -> Hno. unfold calculate_portfolio_var.
    cbv beta iota delta [is_empty]. simpl individual_loop.
    rewrite (getitem_absent weights a Hno). reflexivity.
  - intros r Hr.
    destruct (calculate_portfolio_var_inv self _ _ _ _ _ _ Hr)
      as [Hne [iv [prs [pvr [Hloop [Harr _]]]]]].
    split; [exact Hne |]. split.
    + intros a rs Hin. apply (individual_loop_items self _ _ _ _ _ _ _ _ _ Hloop a rs Hin).
    + intros a1 s1 a2 s2 H1 H2. apply (np_array2_lengths _ _ Harr).
      * apply (in_map snd _ _ H1).
      * apply (in_map snd _ _ H2).
Qed.

Lemma portfolio_result_requirements_witness :
  @calculate_portfolio_var toy_runtime VaRCalculator.default
    [ ("A", [0.01; -0.02; 0.03]); ("B", [0.02; 0.01; -0.01]) ]%string
    [ ("B", 1) ]%string 0.95 "historical" None = Raise (KeyError "A") /\
  exists r,
    @calculate_portfolio_var toy_runtime VaRCalculator.default
      [ ("A", [0.01; -0.02; 0.03]); ("B", [0.02; 0.01; -0.01]) ]%string
      [ ("A", 0.5); ("B", 0.5) ]%string 0.95 "historical" None = Ok r /\
    (forall a rs,
       In (a, rs) [ ("A", [0.01; -0.02; 0.03]); ("B", [0.02; 0.01; -0.01]) ]%string ->
       rs <> [] /\ exists w, getitem [ ("A", 0.5); ("B", 0.5) ]%string a = Ok w).
Proof.
  split.
  - destruct (@portfolio_result_requirements toy_runtime VaRCalculator.default
                [ ("A", [0.01; -0.02; 0.03]); ("B", [0.02; 0.01; -0.01]) ]%string
                [ ("B", 1) ]%string 0.95 "historical" None) as [_ [Hkey _]].
    apply (Hkey "A"%string [0.01; -0.02; 0.03] [("B"%string, [0.02; 0.01; -0.01])]).
    + reflexivity.
    + intros w. discriminate.
  - destruct (@portfolio_result_requirements toy_runtime VaRCalculator.default
                [ ("A", [0.01; -0.02; 0.03]); ("B", [0.02; 0.01; -0.01]) ]%string
                [ ("A", 0.5); ("B", 0.5) ]%string 0.95 "historical" None)
      as [_ [_ Hreq]].
    assert (Hr : exists r,
               @calculate_portfolio_var toy_runtime VaRCalculator.default
                 [ ("A", [0.01; -0.02; 0.03]); ("B", [0.02; 0.01; -0.01]) ]%string
                 [ ("A", 0.5); ("B", 0.5) ]%string 0.95 "historical" None = Ok r)
      by (eexists; vm_compute; reflexivity).
    destruct Hr as [r Hr]. exists r. split; [exact Hr |].
    apply (Hreq r Hr).
Defined.

(** X17.  With pairwise distinct asset names, a weight and a non-empty
    series for every asset, one common length and a confidence level in
    [0,1] (for the parametric method: from 2^-53 to below 1, where the
    normal quantile is finite), the aggregator returns a result.  Its
    [individual_vars] has one entry per asset, in the order of the assets,
    none negative; the portfolio VaR is not negative; and the
    diversification benefit is the sum of the individual VaRs minus the
    portfolio VaR. *)
Theorem portfolio_result_structure {rt : Runtime} (self : VaRCalculator.t)
    (assets : list (string * list Q)) (weights : list (string * Q))
    (c : Q) (method : string) (pv : option Q) :
  assets <> [] -> NoDup (map fst assets) ->
  (forall a rs, In (a, rs) assets -> rs <> [] /\ exists w, getitem weights a = Ok w) ->
  (forall a1 s1 a2 s2, In (a1, s1) assets -> In (a2, s2) assets ->
     length s1 = length s2) ->
  0 <= c -> c <= 1 -> (method <> "historical"%string -> ppf_finite c) ->
  exists r,
    calculate_portfolio_var self assets weights c method pv = Ok r /\
    map fst (PortfolioVaRResult.individual_vars r) = map fst assets /\
    Forall (fun kv => 0 <= snd kv) (PortfolioVaRResult.individual_vars r) /\
    0 <= PortfolioVaRResult.portfolio_var r /\
    PortfolioVaRResult.diversification_benefit r =
      np_sum (map snd (PortfolioVaRResult.individual_vars r)) -
      PortfolioVaRResult.portfolio_var r.
Proof.
  intros Hne Hnd Hall Hlen Hc0 Hc1 _.
  set (V := py_or pv (VaRCalculator.portfolio_value self)).
  assert (Hok : exists r, calculate_portfolio_var self assets weights c method pv = Ok r).
  { unfold calculate_portfolio_var. fold V.
    destruct assets as [| [a0 s0] assets'] eqn:Ea; [congruence |].
    rewrite <- Ea in *. replace (is_empty assets) with false by (rewrite Ea; reflexivity).
    destruct (individual_loop_succeeds self weights c method V assets Hc0 Hc1 Hall [] [])
      as [iv [mat Hloop]].
    rewrite Hloop. cbv beta iota delta [bind].
    destruct (individual_loop_spec self weights c method V _ _ _ _ _ Hloop) as [Hmat _].
    rewrite app_nil_l in Hmat. subst mat.
    rewrite np_array2_equal_lengths.
    2: { intros r1 r2 H1 H2. apply in_map_iff in H1 as [[a1 s1] [<- H1]].
         apply in_map_iff in H2 as [[a2 s2] [<- H2]]. apply (Hlen a1 s1 a2 s2 H1 H2). }
    set (min_length := match map (fun kv => length (snd kv)) assets with
                       | [] => 0%nat | n :: ns => py_min_nat n ns end).
    assert (Hmin : (0 < min_length)%nat).
    { unfold min_length. rewrite Ea. simpl map.
      assert (Hpos : forall a rs, In (a, rs) assets -> (0 < length rs)%nat).
      { intros a rs Hin. destruct (Hall a rs Hin) as [Hrs _].
        destruct rs; simpl; [congruence | lia]. }
      apply py_min_nat_positive.
      - apply (Hpos a0 s0). rewrite Ea. left. reflexivity.
      - apply Forall_forall. intros n Hn. apply in_map_iff in Hn as [[a s] [<- Hin]].
        apply (Hpos a s). rewrite Ea. right. exact Hin. }
    destruct (portfolio_returns_loop_succeeds weights assets (seq 0 min_length))
      as [prs [Hprs Hplen]].
    { intros a rs Hin. apply (Hall a rs Hin). }
    rewrite Hprs.
    assert (Hpne : prs <> []).
    { intros ->. rewrite length_seq in Hplen. simpl in Hplen. lia. }
    destruct (base_var_succeeds self method prs c V Hpne Hc0 Hc1) as [pvr Hpvr].
    rewrite Hpvr. eexists. reflexivity. }
  destruct Hok as [r Hr]. exists r. split; [exact Hr |].
  destruct (calculate_portfolio_var_inv self _ _ _ _ _ _ Hr)
    as [_ [iv [prs [pvr [Hloop [_ [Hpvr [Hiv [Hpvar [Hben _]]]]]]]]]].
  fold V in Hloop, Hpvr.
  destruct (individual_loop_keys self weights c method V assets [] [] iv _ Hnd Hloop)
    as [Hkeys Hpos].
  rewrite Hiv, Hpvar, Hben.
  split; [exact Hkeys |]. split; [apply Hpos; constructor |].
  split; [apply (base_var_nonempty self _ _ _ _ _ Hpvr) | reflexivity].
Qed.

Lemma portfolio_result_structure_witness :
  exists r,
    @calculate_portfolio_var toy_runtime VaRCalculator.default
      [ ("Asset1", [0.01; -0.02; 0.03; -0.01; 0.02]);
        ("Asset2", [-0.01; 0.02; -0.03; 0.01; -0.02]);
        ("Asset3", [0.005; -0.01; 0.015; -0.005; 0.01]) ]%string
      [ ("Asset1", 0.5); ("Asset2", 0.3); ("Asset3", 0.2) ]%string
      0.95 "parametric" None = Ok r /\
    map fst (PortfolioVaRResult.individual_vars r) =
      [ "Asset1"; "Asset2"; "Asset3" ]%string /\
    0 <= PortfolioVaRResult.portfolio_var r.
Proof.
  destruct (@portfolio_result_structure toy_runtime VaRCalculator.default
      [ ("Asset1", [0.01; -0.02; 0.03; -0.01; 0.02]);
        ("Asset2", [-0.01; 0.02; -0.03; 0.01; -0.02]);
        ("Asset3", [0.005; -0.01; 0.015; -0.005; 0.01]) ]%string
      [ ("Asset1", 0.5); ("Asset2", 0.3); ("Asset3", 0.2) ]%string
      0.95 "parametric" None) as [r [Hr [Hkeys [_ [Hpos _]]]]].
  - discriminate.
  - repeat constructor; simpl; intuition discriminate.
  - intros a rs [H | [H | [H | []]]]; injection H as <- <-;
      (split; [discriminate | eexists; reflexivity]).
  - intros a1 s1 a2 s2 [H1 | [H1 | [H1 | []]]] [H2 | [H2 | [H2 | []]]];
      injection H1 as <- <-; injection H2 as <- <-; reflexivity.
  - discriminate.
  - discriminate.
  - intros _. split; [discriminate | reflexivity].
  - exists r. repeat split; assumption.
Defined.

(** ** The correlation matrix *)

Section CorrelationFacts.
Context {rt : Runtime}.

Lemma np_clip_range (e : pyfloat) : is_correlation (np_clip e).
Proof.
  destruct e as [q | | |]; simpl.
  - right. eexists. split; [reflexivity |].
    destruct (Qle_bool q (-1)) eqn:E1; [split; discriminate |].
    destruct (Qle_bool 1 q) eqn:E2; [split; discriminate |].
    split.
    + destruct (Qlt_le_dec q (-1)) as [H | H]; [| exact H].
      apply Qlt_le_weak in H. apply Qle_bool_iff in H. congruence.
    + destruct (Qlt_le_dec 1 q) as [H | H]; [| exact H].
      apply Qlt_le_weak in H. apply Qle_bool_iff in H. congruence.
  - right. exists 1. repeat split; discriminate.
  - right. exists (-1). repeat split; discriminate.
  - left. reflexivity.
Qed.

Lemma corr_entry_range (x y : list Q) : is_correlation (corr_entry x y).
Proof.
  unfold corr_entry.
  destruct (stddev_of (cov_entry x x)); [| left; reflexivity].
  destruct (stddev_of (cov_entry y y)); [| left; reflexivity].
  apply np_clip_range.
Qed.

Lemma np_corrcoef_shape (rows : list (list Q)) :
  (forall r0, rows = [r0] -> exists e, np_corrcoef rows = CorrScalar e) /\
  ((2 <= length rows)%nat ->
   exists m,
     np_corrcoef rows = CorrMatrix m /\
     length m = length rows /\
     Forall (fun row => length row = length rows /\ Forall is_correlation row) m).
Proof.
  split.
  - intros r0 ->. eexists. reflexivity.
  - intros Hlen.
    exists (map (fun xi => map (fun xj => corr_entry xi xj) rows) rows).
    split; [| split].
    + destruct rows as [| r0 [| r1 rows']]; simpl in Hlen; try lia. reflexivity.
    + apply length_map.
    + apply Forall_forall. intros row Hrow.
      apply in_map_iff in Hrow as [xi [<- _]].
      split; [apply length_map |].
      apply Forall_forall. intros e He.
      apply in_map_iff in He as [xj [<- _]]. apply corr_entry_range.
Qed.
End CorrelationFacts.

(** X18.  The correlation matrix of a returned portfolio result: with two
    or more assets it is a square nested list, one row and one column per
    asset, whose entries are [nan] or numbers in [-1, 1]; with a single
    asset numpy returns a scalar, so the field holds a bare float instead
    of a nested list. *)
Theorem correlation_matrix_shape {rt : Runtime} (self : VaRCalculator.t)
    (assets : list (string * list Q)) (weights : list (string * Q))
    (c : Q) (method : string) (pv : option Q) (r : PortfolioVaRResult.t) :
  calculate_portfolio_var self assets weights c method pv = Ok r ->
  ((length assets = 1)%nat ->
   exists e, PortfolioVaRResult.correlation_matrix r = CorrScalar e) /\
  ((2 <= length assets)%nat ->
   exists m,
     PortfolioVaRResult.correlation_matrix r = CorrMatrix m /\
     length m = length assets /\
     Forall (fun row => length row = length assets /\ Forall is_correlation row) m).
Proof.
  intros Hr.
  destruct (calculate_portfolio_var_inv self _ _ _ _ _ _ Hr)
    as [_ [iv [prs [pvr [_ [_ [_ [_ [_ [_ Hcorr]]]]]]]]]].
  rewrite Hcorr.
  destruct (np_corrcoef_shape (map snd assets)) as [Hone Hmany].
  split.
  - intros Hlen. destruct assets as [| [a rs] [| item assets']]; simpl in Hlen; try lia.
    apply (Hone rs). reflexivity.
  - intros Hlen. rewrite length_map in Hmany. apply Hmany. exact Hlen.
Qed.

Lemma correlation_matrix_shape_witness :
  (exists r e,
     @calculate_portfolio_var toy_runtime VaRCalculator.default
       [ ("A", [0.01; -0.02; 0.03]) ]%string [ ("A", 1) ]%string
       0.95 "historical" None = Ok r /\
     PortfolioVaRResult.correlation_matrix r = CorrScalar e) /\
  (exists r m,
     @calculate_portfolio_var toy_runtime VaRCalculator.default
       [ ("A", [0.01; -0.02; 0.03]); ("B", [0.02; 0.01; -0.01]) ]%string
       [ ("A", 0.5); ("B", 0.5) ]%string 0.95 "historical" None = Ok r /\
     PortfolioVaRResult.correlation_matrix r = CorrMatrix m /\
     length m = 2%nat).
Proof.
  split.
  - assert (Hr : exists r,
               @calculate_portfolio_var toy_runtime VaRCalculator.default
                 [ ("A", [0.01; -0.02; 0.03]) ]%string [ ("A", 1) ]%string
                 0.95 "historical" None = Ok r)
      by (eexists; vm_compute; reflexivity).
    destruct Hr as [r Hr].
    destruct (@correlation_matrix_shape toy_runtime _ _ _ _ _ _ r Hr) as [Hone _].
    destruct (Hone eq_refl) as [e He]. exists r, e. split; assumption.
  - assert (Hr : exists r,
               @calculate_portfolio_var toy_runtime VaRCalculator.default
                 [ ("A", [0.01; -0.02; 0.03]); ("B", [0.02; 0.01; -0.01]) ]%string
                 [ ("A", 0.5); ("B", 0.5) ]%string 0.95 "historical" None = Ok r)
      by (eexists; vm_compute; reflexivity).
    destruct Hr as [r Hr].
    destruct (@correlation_matrix_shape toy_runtime _ _ _ _ _ _ r Hr) as [_ Hmany].
    destruct (Hmany ltac:(simpl; lia)) as [m [Hm [Hlen _]]].
    exists r, m. repeat split; assumption.
Defined.

(** ** Portfolios whose returns cancel *)

Section CancellingAssets.
Context {rt : Runtime}.
Variable self : VaRCalculator.t.

(** The VaR of either base method on a series of identical values. *)
Lemma base_var_constant (method : string) (prs : list Q) (c V v : Q)
    (pvr : VaRResult.t) :
  Forall (fun x => x == v) prs ->
  base_var self method prs c V = Ok pvr ->
  VaRResult.var_value pvr == Qabs (v * py_or (Some V) (VaRCalculator.portfolio_value self)).
Proof.
  intros Hall. unfold base_var.
  destruct (String.eqb method "historical"); intros Hr.
  - destruct (calculate_historical_var_inv self _ _ _ _ Hr)
      as [Hne [q [Hq [Hv _]]]].
    rewrite Hv.
    assert (Hp : 0 <= (1 - c) * 100 /\ (1 - c) * 100 <= 100).
    { revert Hq. unfold np_percentile.
      destruct (Qle_bool 0 ((1 - c) * 100)) eqn:E0;
        destruct (Qle_bool ((1 - c) * 100) 100) eqn:E1; try discriminate.
      intros _. split; apply Qle_bool_iff; assumption. }
    destruct (np_percentile_between prs _ q Hne (proj1 Hp) (proj2 Hp) Hq) as [Hlo Hhi].
    rewrite Forall_forall in Hall.
    assert (Hmin : np_min prs == v) by (apply Hall, np_min_In, Hne).
    assert (Hmax : np_max prs == v) by (apply Hall, np_max_In, Hne).
    assert (Hqv : q == v) by (apply Qle_antisym; lra).
    rewrite Hqv. reflexivity.
  - destruct (calculate_parametric_var_inv self _ _ _ _ _ Hr)
      as [Hne [_ [Hv _]]].
    rewrite Hv.
    destruct (constant_statistics prs v Hne Hall) as [Hstd _].
    pose proof (np_mean_const prs v Hne Hall) as Hmean.
    assert (Hq : parametric_quantile prs c "normal" == v).
    { unfold parametric_quantile. simpl String.eqb. cbv iota.
      rewrite Hstd, Hmean. ring. }
    rewrite Hq. reflexivity.
Qed.

Lemma nth_map_opp (xs : list Q) (i : nat) :
  nth i (map Qopp xs) 0 == - nth i xs 0.
Proof.
  revert i. induction xs as [| x xs IH]; intros [| i]; simpl;
    try reflexivity. apply IH.
Qed.

Lemma portfolio_returns_all (items : list (string * list Q))
    (weights : list (string * Q)) (v : Q) (indices : list nat) (prs : list Q) :
  (forall i s, weighted_sum items weights i 0 = Ok s -> s == v) ->
  portfolio_returns_loop items weights indices = Ok prs ->
  Forall (fun x => x == v) prs.
Proof.
  intros Hsum. revert prs. induction indices as [| i indices IH]; intros prs; simpl.
  - intros H. injection H as <-. constructor.
  - destruct (weighted_sum items weights i 0) as [s | e] eqn:Hs; simpl; [| discriminate].
    destruct (portfolio_returns_loop items weights indices) as [rest | e];
      simpl; [| discriminate].
    intros H. injection H as <-. constructor; [apply (Hsum i s Hs) | apply IH; reflexivity].
Qed.

Lemma setitem_Forall {A : Type} (P : string * A -> Prop)
    (d : list (string * A)) (k : string) (v : A) :
  Forall P d -> P (k, v) -> Forall P (setitem d k v).
Proof.
  intros Hd Hv. induction Hd as [| [k' v'] d Hk Hd IH]; simpl.
  - constructor; [exact Hv | constructor].
  - destruct (String.eqb k' k); constructor; auto.
Qed.

Lemma individual_loop_nonneg (weights : list (string * Q)) (c : Q)
    (method : string) (V : Q) (items : list (string * list Q)) :
  forall acc mat iv mat',
    individual_loop self items weights c method V acc mat = Ok (iv, mat') ->
    Forall (fun kv => 0 <= snd kv) acc -> Forall (fun kv => 0 <= snd kv) iv.
Proof.
  induction items as [| [a0 rs0] items IH]; intros acc mat iv mat' Hloop Hacc.
  - simpl in Hloop. injection Hloop as <- <-. exact Hacc.
  - simpl in Hloop.
    destruct (getitem weights a0) as [w0 | e]; simpl in Hloop; [| discriminate].
    destruct (base_var self method rs0 c (V * w0)) as [vr0 | e] eqn:Hvr0;
      simpl in Hloop; [| discriminate].
    apply (IH _ _ _ _ Hloop). apply setitem_Forall; [exact Hacc |].
    simpl. apply (base_var_nonempty self _ _ _ _ _ Hvr0).
Qed.

Lemma np_sum_nonneg (a : list Q) : Forall (fun x => 0 <= x) a -> 0 <= np_sum a.
Proof.
  induction 1 as [| x a Hx Ha IH].
  - apply Qle_refl.
  - rewrite np_sum_cons. lra.
Qed.

(** A returned portfolio result together with the portfolio return
    series it was computed from. *)
Lemma calculate_portfolio_var_series (assets : list (string * list Q))
    (weights : list (string * Q)) (c : Q) (method : string) (pv : option Q)
    (r : PortfolioVaRResult.t) :
  calculate_portfolio_var self assets weights c method pv = Ok r ->
  let V := py_or pv (VaRCalculator.portfolio_value self) in
  exists indices prs pvr,
    portfolio_returns_loop assets weights indices = Ok prs /\
    base_var self method prs c V = Ok pvr /\
    PortfolioVaRResult.portfolio_var r = VaRResult.var_value pvr /\
    PortfolioVaRResult.portfolio_volatility r = np_std prs /\
    PortfolioVaRResult.diversification_benefit r =
      np_sum (map snd (PortfolioVaRResult.individual_vars r)) -
      PortfolioVaRResult.portfolio_var r /\
    Forall (fun kv => 0 <= snd kv) (PortfolioVaRResult.individual_vars r).
Proof.
  intros Hr V.
  unfold calculate_portfolio_var in Hr. fold V in Hr.
  destruct (is_empty assets); [discriminate |].
  destruct (individual_loop self assets weights c method V [] [])
    as [[iv mat] | e] eqn:Hloop; cbv beta iota delta [bind] in Hr; [| discriminate].
  destruct (np_array2 mat) as [arr | e]; [| discriminate].
  destruct (portfolio_returns_loop assets weights _) as [prs | e] eqn:Hprs;
    [| discriminate].
  destruct (base_var self method prs c V) as [pvr | e] eqn:Hpvr; [| discriminate].
  injection Hr as <-.
  eexists. exists prs, pvr.
  split; [exact Hprs |]. split; [exact Hpvr |].
  repeat split.
  apply (individual_loop_nonneg weights c method V assets _ _ _ _ Hloop). constructor.
Qed.
End CancellingAssets.

Lemma calculate_portfolio_var_succeeds {rt : Runtime} (self : VaRCalculator.t)
    (assets : list (string * list Q)) (weights : list (string * Q))
    (c : Q) (method : string) (pv : option Q) :
  assets <> [] ->
  (forall a rs, In (a, rs) assets -> rs <> [] /\ exists w, getitem weights a = Ok w) ->
  (forall a1 s1 a2 s2, In (a1, s1) assets -> In (a2, s2) assets ->
     length s1 = length s2) ->
  0 <= c -> c <= 1 ->
  exists r, calculate_portfolio_var self assets weights c method pv = Ok r.
Proof.
  intros Hne Hall Hlen Hc0 Hc1.
  set (V := py_or pv (VaRCalculator.portfolio_value self)).
  unfold calculate_portfolio_var. fold V.
  destruct assets as [| [a0 s0] assets'] eqn:Ea; [congruence |].
  rewrite <- Ea in *. replace (is_empty assets) with false by (rewrite Ea; reflexivity).
  destruct (individual_loop_succeeds self weights c method V assets Hc0 Hc1 Hall [] [])
    as [iv [mat Hloop]].
  rewrite Hloop. cbv beta iota delta [bind].
  destruct (individual_loop_spec self weights c method V _ _ _ _ _ Hloop) as [Hmat _].
  rewrite app_nil_l in Hmat. subst mat.
  rewrite np_array2_equal_lengths.
  2: { intros r1 r2 H1 H2. apply in_map_iff in H1 as [[a1 s1] [<- H1]].
       apply in_map_iff in H2 as [[a2 s2] [<- H2]]. apply (Hlen a1 s1 a2 s2 H1 H2). }
  set (min_length := match map (fun kv => length (snd kv)) assets with
                     | [] => 0%nat | n :: ns => py_min_nat n ns end).
  assert (Hmin : (0 < min_length)%nat).
  { unfold min_length. rewrite Ea. simpl map.
    assert (Hpos : forall a rs, In (a, rs) assets -> (0 < length rs)%nat).
    { intros a rs Hin. destruct (Hall a rs Hin) as [Hrs _].
      destruct rs; simpl; [congruence | lia]. }
    apply py_min_nat_positive.
    - apply (Hpos a0 s0). rewrite Ea. left. reflexivity.
    - apply Forall_forall. intros n Hn. apply in_map_iff in Hn as [[a s] [<- Hin]].
      apply (Hpos a s). rewrite Ea. right. exact Hin. }
  destruct (portfolio_returns_loop_succeeds weights assets (seq 0 min_length))
    as [prs [Hprs Hplen]].
  { intros a rs Hin. apply (Hall a rs Hin). }
  rewrite Hprs.
  assert (Hpne : prs <> []).
  { intros ->. rewrite length_seq in Hplen. simpl in Hplen. lia. }
  destruct (base_var_succeeds self method prs c V Hpne Hc0 Hc1) as [pvr Hpvr].
  rewrite Hpvr. eexists. reflexivity.
Qed.

(** X21.  Two assets of which one is the negation of the other, held
    with equal weights, cancel: every portfolio return is exactly 0 (in
    binary64 too: the two products are opposite numbers).  For a
    non-empty series and a confidence level in [0,1] (for the parametric
    method: from 2^-53 to below 1, where the normal quantile is finite)
    the aggregator returns a result with portfolio VaR 0 and portfolio
    volatility 0, so that the diversification benefit is the whole sum of
    the individual VaRs, and is not negative. *)
Theorem opposite_assets_cancel {rt : Runtime} (self : VaRCalculator.t)
    (a b : string) (xs : list Q) (weights : list (string * Q)) (w c : Q)
    (method : string) (pv : option Q) :
  a <> b -> xs <> [] -> 0 <= c -> c <= 1 ->
  (method <> "historical"%string -> ppf_finite c) ->
  getitem weights a = Ok w -> getitem weights b = Ok w ->
  exists r,
    calculate_portfolio_var self [(a, xs); (b, map Qopp xs)] weights c method pv
      = Ok r /\
    PortfolioVaRResult.portfolio_var r == 0 /\
    PortfolioVaRResult.portfolio_volatility r == 0 /\
    PortfolioVaRResult.diversification_benefit r ==
      np_sum (map snd (PortfolioVaRResult.individual_vars r)) /\
    0 <= PortfolioVaRResult.diversification_benefit r.
Proof.
  intros _ Hne Hc0 Hc1 _ Hwa Hwb.
  destruct (calculate_portfolio_var_succeeds self [(a, xs); (b, map Qopp xs)]
              weights c method pv) as [r Hr]; auto.
  { discriminate. }
  { intros a' rs [H | [H | []]]; injection H as <- <-.
    - split; [exact Hne | exists w; exact Hwa].
    - split; [| exists w; exact Hwb].
      destruct xs; [congruence | discriminate]. }
  { intros a1 s1 a2 s2 [H1 | [H1 | []]] [H2 | [H2 | []]];
      injection H1 as <- <-; injection H2 as <- <-;
      rewrite ?length_map; reflexivity. }
  exists r. split; [exact Hr |].
  destruct (calculate_portfolio_var_series self _ _ _ _ _ _ Hr)
    as [indices [prs [pvr [Hprs [Hpvr [Hvar [Hvol [Hben Hpos]]]]]]]].
  assert (Hzero : Forall (fun x => x == 0) prs).
  { apply (portfolio_returns_all [(a, xs); (b, map Qopp xs)] weights 0 indices);
      [| exact Hprs].
    intros i s Hs. simpl in Hs. rewrite Hwa in Hs. simpl in Hs. rewrite Hwb in Hs.
    simpl in Hs. injection Hs as <-. rewrite nth_map_opp. ring. }
  destruct (base_var_nonempty self _ _ _ _ _ Hpvr) as [Hpne _].
  assert (Hv0 : PortfolioVaRResult.portfolio_var r == 0).
  { rewrite Hvar, (base_var_constant self method prs c _ 0 pvr Hzero Hpvr).
    rewrite Qmult_0_l. reflexivity. }
  split; [exact Hv0 |]. split.
  - rewrite Hvol. apply (constant_statistics prs 0 Hpne Hzero).
  - assert (Hb : PortfolioVaRResult.diversification_benefit r ==
                 np_sum (map snd (PortfolioVaRResult.individual_vars r))).
    { rewrite Hben, Hv0. ring. }
    split; [exact Hb |]. rewrite Hb. apply np_sum_nonneg.
    apply Forall_map. exact Hpos.
Qed.

Lemma opposite_assets_cancel_witness :
  exists r,
    @calculate_portfolio_var toy_runtime VaRCalculator.default
      [ ("Asset1", [0.02; -0.01; 0.03; -0.02; 0.01]);
        ("Asset2", map Qopp [0.02; -0.01; 0.03; -0.02; 0.01]) ]%string
      [ ("Asset1", 0.5); ("Asset2", 0.5) ]%string 0.95 "parametric" None = Ok r /\
    PortfolioVaRResult.portfolio_var r == 0 /\
    PortfolioVaRResult.portfolio_volatility r == 0 /\
    PortfolioVaRResult.diversification_benefit r ==
      np_sum (map snd (PortfolioVaRResult.individual_vars r)) /\
    0 <= PortfolioVaRResult.diversification_benefit r.
Proof.
  apply (@opposite_assets_cancel toy_runtime VaRCalculator.default
           "Asset1"%string "Asset2"%string [0.02; -0.01; 0.03; -0.02; 0.01]
           [ ("Asset1", 0.5); ("Asset2", 0.5) ]%string 0.5 0.95 "parametric" None).
  - discriminate.
  - discriminate.
  - discriminate.
  - discriminate.
  - intros _. split; [discriminate | reflexivity].
  - reflexivity.
  - reflexivity.
Defined.
